(** * The employee-data cleaning pipeline (csds397_ia2_create_database.py)

    A shallow embedding of the pandas code of the pipeline: the text
    primitives of Python's [str], the cells, series and data frames the
    program manipulates, the profiler [profile_data], the normaliser
    [clean_data] and the canonical loader
    [load_clean_data_to_final_table], followed by the properties of the
    specification.

    Conventions of the embedding.
    - Text is ASCII: a character is a code point below 128.
    - A numeric cell carries an integer; a float64 column that pandas
      creates for an INT column with missing values holds the same
      integers and NaN.
    - A [Timestamp] is a calendar day: the only reader of a parsed date in
      the program is [strftime("%Y-%m-%d")], which ignores the time of day.
    - The index of a data frame is the position of the row.
    - The message [clean_data] prints (the number of rows dropped) is not
      modelled; the console of the profiler and of the loader is. *)

From stdpp Require Import base list strings gmap.
From Stdlib Require Import ZArith Lia ZifyBool ZifyNat DecimalString.
From Stdlib Require Import Ascii.

Local Open Scope string_scope.

(* ===================================================================== *)
(** ** Python [str] methods *)
(* ===================================================================== *)

Module PyStr.

Definition code (c : ascii) : N := N_of_ascii c.

(** [str.isspace] on one character: tab, line feed, vertical tab, form
    feed, carriage return, the four separators 0x1c-0x1f and the space.
    The regular expression class [\s] on a [str] pattern is the same set. *)
Definition isspace (c : ascii) : bool :=
  let n := code c in
  ((9 <=? n) && (n <=? 13) || (28 <=? n) && (n <=? 32))%N.

Definition islower (c : ascii) : bool :=
  let n := code c in ((97 <=? n) && (n <=? 122))%N.

Definition isupper (c : ascii) : bool :=
  let n := code c in ((65 <=? n) && (n <=? 90))%N.

Definition toupper (c : ascii) : ascii :=
  if islower c then ascii_of_N (code c - 32) else c.

Definition tolower (c : ascii) : ascii :=
  if isupper c then ascii_of_N (code c + 32) else c.

(** [s.upper()] *)
Fixpoint upper (s : string) : string :=
  match s with
  | EmptyString => EmptyString
  | String c s' => String (toupper c) (upper s')
  end.

(** [s.lstrip()] *)
Fixpoint lstrip (s : string) : string :=
  match s with
  | EmptyString => EmptyString
  | String c s' => if isspace c then lstrip s' else s
  end.

(** [s.rstrip()] *)
Fixpoint rstrip (s : string) : string :=
  match s with
  | EmptyString => EmptyString
  | String c s' =>
      match rstrip s' with
      | EmptyString => if isspace c then EmptyString else String c EmptyString
      | r => String c r
      end
  end.

(** [s.strip()] *)
Definition strip (s : string) : string := rstrip (lstrip s).

Definition iscased (c : ascii) : bool := islower c || isupper c.

(** The character [s.title()] writes for [c]: a cased character is
    upper-cased at the start of a word and lower-cased inside one. *)
Definition title_char (previous_is_cased : bool) (c : ascii) : ascii :=
  if islower c then (if previous_is_cased then c else toupper c)
  else if isupper c then (if previous_is_cased then tolower c else c)
  else c.

(** [s.title()]: CPython walks the string remembering whether the
    previous character was cased. *)
Fixpoint title_from (previous_is_cased : bool) (s : string) : string :=
  match s with
  | EmptyString => EmptyString
  | String c s' => String (title_char previous_is_cased c) (title_from (iscased c) s')
  end.

Definition title (s : string) : string := title_from false s.

(** [re.sub(r'\s+', '', s)]: every maximal run of whitespace is replaced
    by the empty string, that is, every whitespace character goes. *)
Fixpoint remove_whitespace (s : string) : string :=
  match s with
  | EmptyString => EmptyString
  | String c s' =>
      if isspace c then remove_whitespace s' else String c (remove_whitespace s')
  end.

(** The first character of [s], if any, is not whitespace. *)
Definition no_leading_space (s : string) : bool :=
  match s with
  | EmptyString => true
  | String c _ => negb (isspace c)
  end.

(** No character of [s] is whitespace. *)
Fixpoint no_space (s : string) : bool :=
  match s with
  | EmptyString => true
  | String c s' => negb (isspace c) && no_space s'
  end.

End PyStr.

(* ===================================================================== *)
(** ** Calendar days and [strftime] *)
(* ===================================================================== *)

(** A pandas [Timestamp], at the resolution of a day. *)
Record Timestamp := mkTimestamp { year : nat; month : nat; day : nat }.

Global Instance Timestamp_eq_dec : EqDecision Timestamp.
Proof. solve_decision. Defined.

Module Calendar.

Definition is_leap (y : nat) : bool :=
  ((y mod 4 =? 0) && negb (y mod 100 =? 0) || (y mod 400 =? 0))%nat.

Definition days_in_month (y m : nat) : nat :=
  match m with
  | 1 | 3 | 5 | 7 | 8 | 10 | 12 => 31
  | 4 | 6 | 9 | 11 => 30
  | 2 => if is_leap y then 29 else 28
  | _ => 0
  end.

(** Lexicographic order on (year, month, day). *)
Definition leb (a b : Timestamp) : bool :=
  ((year a <? year b)
   || (year a =? year b)
      && ((month a <? month b) || (month a =? month b) && (day a <=? day b)))%nat.

(** The days that fit entirely in pandas' nanosecond range,
    [Timestamp.min = 1677-09-21 00:12:43.145] and
    [Timestamp.max = 2262-04-11 23:47:16.854]. *)
Definition first_day : Timestamp := mkTimestamp 1677 9 22.
Definition last_day : Timestamp := mkTimestamp 2262 4 11.

(** A day of the calendar that a [Timestamp] can hold. *)
Definition valid (t : Timestamp) : bool :=
  ((1 <=? month t) && (month t <=? 12)
   && (1 <=? day t) && (day t <=? days_in_month (year t) (month t)))%nat
  && leb first_day t && leb t last_day.

Definition digit (n : nat) : ascii := ascii_of_nat (48 + n mod 10).

Definition zero_pad2 (n : nat) : string :=
  String (digit (n / 10)) (String (digit n) EmptyString).

Definition zero_pad4 (n : nat) : string :=
  String (digit (n / 1000)) (String (digit (n / 100)) (zero_pad2 n)).

(** [t.strftime("%Y-%m-%d")] *)
Definition strftime (t : Timestamp) : string :=
  zero_pad4 (year t) ++ "-" ++ zero_pad2 (month t) ++ "-" ++ zero_pad2 (day t).

Definition isdigit (c : ascii) : bool :=
  let n := N_of_ascii c in ((48 <=? n) && (n <=? 57))%N.

(** The pattern YYYY-MM-DD: four digits, a dash, two digits, a dash,
    two digits, and nothing else. *)
Definition matches_ymd (s : string) : bool :=
  match s with
  | String y1 (String y2 (String y3 (String y4 (String d1
      (String m1 (String m2 (String d2 (String a1 (String a2 EmptyString))))))))) =>
      isdigit y1 && isdigit y2 && isdigit y3 && isdigit y4
      && bool_decide (d1 = "-"%char)
      && isdigit m1 && isdigit m2
      && bool_decide (d2 = "-"%char)
      && isdigit a1 && isdigit a2
  | _ => false
  end.

(** [pd.to_datetime("1900-01-01")], the fallback of the normaliser. *)
Definition epoch_1900 : Timestamp := mkTimestamp 1900 1 1.

End Calendar.

(* ===================================================================== *)
(** ** Cells and series *)
(* ===================================================================== *)

(** The values a column of the pipeline holds. [PyNone] is the missing
    value of an object column read from the store, [NaN] that of a
    float64 column, [NaT] that of a datetime64 column. *)
Inductive cell :=
| PyNone
| NaN
| NaT
| Int (z : Z)
| Str (s : string)
| Ts (t : Timestamp).

Global Instance cell_eq_dec : EqDecision cell.
Proof. solve_decision. Defined.

Abbreviation Series := (list cell).

(** [pd.isnull] on a scalar. *)
Definition isnull (x : cell) : bool :=
  match x with
  | PyNone | NaN | NaT => true
  | _ => false
  end.

Definition notnull (x : cell) : bool := negb (isnull x).

(** [str(x)], as [astype(str)] applies it to every element of an object
    column, missing values included. *)
Definition py_str (x : cell) : string :=
  match x with
  | PyNone => "None"
  | NaN => "nan"
  | NaT => "NaT"
  | Int z => NilZero.string_of_int (Z.to_int z)
  | Str s => s
  | Ts t => Calendar.strftime t ++ " 00:00:00"
  end.

Module Series_.

(** [s.isnull()] *)
Definition isnull_mask (s : Series) : list bool := isnull <$> s.

(** [s.fillna(v)] with a scalar. *)
Definition fillna (v : cell) (s : Series) : Series :=
  (fun x => if isnull x then v else x) <$> s.

(** [s.fillna(other)] with a series on the same index: a missing
    element takes the element of [other] at its position. *)
Fixpoint fillna_series (s other : Series) : Series :=
  match s, other with
  | x :: s', y :: other' => (if isnull x then y else x) :: fillna_series s' other'
  | x :: s', [] => x :: s'
  | [], _ => []
  end.

(** [s.astype(str)] *)
Definition astype_str (s : Series) : Series := (fun x => Str (py_str x)) <$> s.

(** A method of the [.str] accessor: applied to the strings, NaN on
    anything else. *)
Definition str_method (f : string -> string) (s : Series) : Series :=
  (fun x => match x with Str v => Str (f v) | _ => NaN end) <$> s.

(** [s.map(d)] with a dict: the value under the element, NaN where the
    element is not a key. *)
Definition map_dict (d : gmap string string) (s : Series) : Series :=
  (fun x => match x with
            | Str k => match d !! k with Some v => Str v | None => NaN end
            | _ => NaN
            end) <$> s.

(** The datetime64 column made of the results of a parse. *)
Definition of_parsed (l : list (option Timestamp)) : Series :=
  (fun o => match o with Some t => Ts t | None => NaT end) <$> l.

(** [s[mask]]: the elements where the mask is true. *)
Fixpoint select {A} (mask : list bool) (s : list A) : list A :=
  match mask, s with
  | b :: mask', x :: s' => if b then x :: select mask' s' else select mask' s'
  | _, _ => []
  end.

(** [s.loc[mask] = v]: the scalar is written where the mask is true. *)
Fixpoint assign_where (mask : list bool) (v : cell) (s : Series) : Series :=
  match mask, s with
  | b :: mask', x :: s' => (if b then v else x) :: assign_where mask' v s'
  | _, _ => s
  end.

(** Two cells are the same key for [duplicated]: equal values, or both
    missing (pandas puts the missing values of a column in one group). *)
Definition same_key (a b : cell) : bool :=
  bool_decide (a = b) || isnull a && isnull b.

(** [s.duplicated(keep="first")]: true at the elements whose key already
    occurred among [seen] or earlier in the series. *)
Fixpoint duplicated_after (seen : list cell) (s : Series) : list bool :=
  match s with
  | [] => []
  | x :: s' => existsb (same_key x) seen :: duplicated_after (x :: seen) s'
  end.

Definition duplicated (s : Series) : list bool := duplicated_after [] s.

(** [s.unique()]: the values in order of first appearance. *)
Definition unique (s : Series) : Series := select (negb <$> duplicated s) s.

End Series_.

(* ===================================================================== *)
(** ** Exceptions *)
(* ===================================================================== *)

(** The Python exceptions the program can meet. *)
Inductive exn :=
| KeyError (key : string)
| AttributeError (msg : string)
| ValueError (msg : string)
| IntegrityError (msg : string)
| DataError (msg : string).

(** The outcome of a call: a value, or an exception on its way up. *)
Inductive result (A : Type) :=
| Returned (a : A)
| Raised (e : exn).
Arguments Returned {A} a.
Arguments Raised {A} e.

Global Instance result_ret : MRet result := fun A a => Returned a.
Global Instance result_bind : MBind result :=
  fun A B f m => match m with Returned a => f a | Raised e => Raised e end.

(* ===================================================================== *)
(** ** Data frames *)
(* ===================================================================== *)

(** A data frame: its columns in order, each a label and a series. *)
Abbreviation DataFrame := (list (string * Series)).

Module DF.

(** [df.columns] *)
Definition columns (df : DataFrame) : list string := fst <$> df.

Fixpoint lookup (c : string) (df : DataFrame) : option Series :=
  match df with
  | [] => None
  | (n, s) :: df' => if bool_decide (n = c) then Some s else lookup c df'
  end.

(** [df[c]] as an expression: KeyError on an absent label. *)
Definition getitem (df : DataFrame) (c : string) : result Series :=
  match lookup c df with
  | Some s => Returned s
  | None => Raised (KeyError c)
  end.

(** [df[c] = s]: the column is replaced where it stands, a new label is
    appended after the last column. *)
Fixpoint setitem (df : DataFrame) (c : string) (s : Series) : DataFrame :=
  match df with
  | [] => [(c, s)]
  | (n, s0) :: df' =>
      if bool_decide (n = c) then (n, s) :: df' else (n, s0) :: setitem df' c s
  end.

(** [df.shape[0]] *)
Definition nrows (df : DataFrame) : nat :=
  match df with
  | [] => 0
  | (_, s) :: _ => length s
  end.

Fixpoint remove (c : string) (df : DataFrame) : DataFrame :=
  match df with
  | [] => []
  | (n, s) :: df' => if bool_decide (n = c) then remove c df' else (n, s) :: remove c df'
  end.

(** [df.drop(columns=[c])]: KeyError on an absent label. *)
Definition drop (df : DataFrame) (c : string) : result DataFrame :=
  if bool_decide (c ∈ columns df) then Returned (remove c df) else Raised (KeyError c).

(** [df[mask]]: the rows where the mask is true, in every column. *)
Definition select_rows (mask : list bool) (df : DataFrame) : DataFrame :=
  (fun col => (col.1, Series_.select mask col.2)) <$> df.

(** [df.loc[mask, c] = v]; on a label that is not a column pandas
    creates the column, NaN where the mask is false. *)
Definition loc_setitem (df : DataFrame) (mask : list bool) (c : string) (v : cell)
  : DataFrame :=
  match lookup c df with
  | Some s => setitem df c (Series_.assign_where mask v s)
  | None => setitem df c (Series_.assign_where mask v (replicate (nrows df) NaN))
  end.

(** [df.drop_duplicates(subset=[c], keep="first")] *)
Definition drop_duplicates (df : DataFrame) (c : string) : result DataFrame :=
  key ← getitem df c;
  mret (select_rows (negb <$> Series_.duplicated key) df).

(** [df[[c1, ..., cn]]]: the listed columns in the listed order. *)
Fixpoint project (df : DataFrame) (cs : list string) : result DataFrame :=
  match cs with
  | [] => mret []
  | c :: cs' =>
      s ← getitem df c;
      rest ← project df cs';
      mret ((c, s) :: rest)
  end.

(** Row [i] of the frame, one cell per column. *)
Definition row (df : DataFrame) (i : nat) : option (list cell) :=
  mapM (fun col : string * Series => col.2 !! i) df.

(** [df.values]: the rows in order. *)
Definition values (df : DataFrame) : list (list cell) :=
  omap (row df) (seq 0 (nrows df)).

(** The columns have distinct labels and the same number of elements. *)
Definition wf (df : DataFrame) : Prop :=
  NoDup (columns df) /\ Forall (fun col => length col.2 = nrows df) df.

End DF.

(** [id_column = "Employee Id" if "Employee Id" in df.columns else "Employee_ID"] *)
Definition id_column (df : DataFrame) : string :=
  if bool_decide ("Employee Id" ∈ DF.columns df) then "Employee Id" else "Employee_ID".

(* ===================================================================== *)
(** ** The date parser *)
(* ===================================================================== *)

(** [pd.to_datetime(series, errors='coerce')] belongs to pandas, not to
    the program. The embedding takes it as a function of the whole series
    (pandas may infer one format from the first element and apply it to the
    others) with the four properties the pipeline relies on: one result per
    element; a missing value gives NaT; a result is a day a Timestamp can
    hold; and a series of ISO days, as [strftime("%Y-%m-%d")] writes them,
    parses to those days. *)
Class DateParser := {
  to_datetime : Series -> list (option Timestamp);
  to_datetime_length : forall s, length (to_datetime s) = length s;
  to_datetime_null : forall s i x,
    s !! i = Some x -> isnull x = true -> to_datetime s !! i = Some None;
  to_datetime_valid : forall s i t,
    to_datetime s !! i = Some (Some t) -> Calendar.valid t = true;
  to_datetime_iso : forall ts,
    Forall (fun t => Calendar.valid t = true) ts ->
    to_datetime ((fun t => Str (Calendar.strftime t)) <$> ts) = Some <$> ts
}.

(** [s.dt.strftime("%Y-%m-%d")]: the accessor exists on a datetime64
    column only; NaT renders as a missing value. *)
Fixpoint dt_strftime (s : Series) : result Series :=
  match s with
  | [] => mret []
  | x :: s' =>
      r ← match x with
          | Ts t => Returned (Str (Calendar.strftime t))
          | NaT => Returned NaN
          | _ => Raised (AttributeError "Can only use .dt accessor with datetimelike values")
          end;
      rest ← dt_strftime s';
      mret (r :: rest)
  end.

(* ===================================================================== *)
(** ** The normaliser: [clean_data] *)
(* ===================================================================== *)

(** The department canonicalisation map, [dept_mapping]. *)
Definition dept_mapping : gmap string string :=
  list_to_map
    [ ("OPERATIONS", "OPERATIONS");
      ("OPRATIONS", "OPERATIONS");
      ("CUSTOMERSUPPORT", "CUSTOMER SUPPORT");
      ("CUSTSUPPORT", "CUSTOMER SUPPORT");
      ("HR", "HR");
      ("IT", "IT");
      ("LOGISTICS", "LOGISTICS");
      ("LOGSTICS", "LOGISTICS");
      ("LEGAL", "LEGAL");
      ("LEGL", "LEGAL");
      ("MARKETING", "MARKETING");
      ("MARKNG", "MARKETING");
      ("MARKTING", "MARKETING");
      ("SALES", "SALES");
      ("FINANCE", "FINANCE");
      ("FIN", "FINANCE");
      ("FINANACE", "FINANCE");
      ("R&D", "R&D");
      ("RND", "R&D");
      ("RESEARCH", "R&D");
      ("SUPPORT", "CUSTOMER SUPPORT");
      ("HUMANRESOURCES", "HR") ].

Section Normalizer.
Context `{DateParser}.

(** Step 1, "Resolve Missing Values" (lines 156-159). *)
Definition resolve_missing_values (df : DataFrame) : result DataFrame :=
  name ← DF.getitem df "Name";
  let df := DF.setitem df "Name" (Series_.fillna (Str "Unknown") name) in
  rating ← DF.getitem df "Performance_Rating";
  let df := DF.setitem df "Performance_Rating" (Series_.fillna (Str "Unknown") rating) in
  country ← DF.getitem df "Country";
  let df := DF.setitem df "Country" (Series_.fillna (Str "Unknown") country) in
  years ← DF.getitem df "Years_of_Experience";
  let df := DF.setitem df "Years_of_Experience" (Series_.fillna (Int (-1)) years) in
  mret df.

(** Step 2, "Standardize Date Format" (lines 162-165). *)
Definition standardize_date_format (df : DataFrame) : result DataFrame :=
  joined ← DF.getitem df "Date_of_Joining";
  let df := DF.setitem df "Date_Parsed" (Series_.of_parsed (to_datetime joined)) in
  parsed ← DF.getitem df "Date_Parsed";
  let df := DF.loc_setitem df (Series_.isnull_mask parsed) "Date_Parsed"
              (Ts Calendar.epoch_1900) in
  parsed ← DF.getitem df "Date_Parsed";
  iso ← dt_strftime parsed;
  let df := DF.setitem df "Date_of_Joining" iso in
  DF.drop df "Date_Parsed".

(** Step 3, "Deduplicate Records" (lines 168-170). *)
Definition deduplicate_records (df : DataFrame) : result DataFrame :=
  DF.drop_duplicates df (id_column df).

(** Step 4, "Normalize Text Fields and strip extra spaces" (lines 177-214). *)
Definition normalize_text_fields (df : DataFrame) : result DataFrame :=
  name ← DF.getitem df "Name";
  let df := DF.setitem df "Name"
              (Series_.str_method PyStr.title
                 (Series_.str_method PyStr.strip (Series_.astype_str name))) in
  dept ← DF.getitem df "Department";
  let df := DF.setitem df "Department"
              (Series_.str_method PyStr.upper
                 (Series_.str_method PyStr.remove_whitespace (Series_.astype_str dept))) in
  dept ← DF.getitem df "Department";
  fallback ← DF.getitem df "Department";
  let df := DF.setitem df "Department"
              (Series_.fillna_series (Series_.map_dict dept_mapping dept) fallback) in
  if bool_decide ("Country" ∈ DF.columns df) then
    country ← DF.getitem df "Country";
    mret (DF.setitem df "Country"
            (Series_.str_method PyStr.title
               (Series_.str_method PyStr.strip (Series_.astype_str country))))
  else mret df.

(** [clean_data(df)]. The function works on [df.copy()], so the
    caller's frame is not touched and the result is a new value. *)
Definition clean_data (df : DataFrame) : result DataFrame :=
  df ← resolve_missing_values df;
  df ← standardize_date_format df;
  df ← deduplicate_records df;
  normalize_text_fields df.

End Normalizer.

(* ===================================================================== *)
(** ** A reference parser *)
(* ===================================================================== *)

(** The strictest parser that meets [DateParser]: it accepts the ISO form
    YYYY-MM-DD and nothing else. The examples run on it. *)
Module IsoParser.

Definition digit_value (c : ascii) : nat := nat_of_ascii c - 48.

Definition parse_ymd (s : string) : option Timestamp :=
  match s with
  | String y1 (String y2 (String y3 (String y4 (String _
      (String m1 (String m2 (String _ (String a1 (String a2 EmptyString))))))))) =>
      if Calendar.matches_ymd s then
        let t := mkTimestamp
                   (1000 * digit_value y1 + 100 * digit_value y2
                    + 10 * digit_value y3 + digit_value y4)
                   (10 * digit_value m1 + digit_value m2)
                   (10 * digit_value a1 + digit_value a2) in
        if Calendar.valid t then Some t else None
      else None
  | _ => None
  end.

Definition parse (s : Series) : list (option Timestamp) :=
  (fun x => match x with
            | Str v => parse_ymd v
            | Ts t => if Calendar.valid t then Some t else None
            | _ => None
            end) <$> s.

End IsoParser.

(* ===================================================================== *)
(** ** Console output *)
(* ===================================================================== *)

(** What a [print] call writes: the text and the object it shows. *)
Inductive printed :=
| Text (s : string)
| Number (label : string) (n : nat)
| Shape (rows cols : nat)
| Frame (df : DataFrame)
| Rows (rs : list (list cell))
| Counts (l : list (string * nat))
| Values (s : Series)
| Describe (df : DataFrame)
| Failure (label : string) (e : exn).

(* ===================================================================== *)
(** ** The profiler: [profile_data] *)
(* ===================================================================== *)

Module Profiler.

(** [profile_data] works on the caller's object: the state is that
    object and the console. *)
Record state := mkState { frame : DataFrame; stdout : list printed }.

(** A computation that reads and writes the state and may raise; the
    state at the moment of the exception is kept. *)
Definition M (A : Type) : Type := state -> state * result A.

Global Instance M_ret : MRet M := fun A a st => (st, Returned a).
Global Instance M_bind : MBind M :=
  fun A B f m st =>
    match m st with
    | (st', Returned a) => f a st'
    | (st', Raised e) => (st', Raised e)
    end.

Definition print (p : printed) : M unit :=
  fun st => (mkState (frame st) (stdout st ++ [p]), Returned tt).

(** The caller's frame as it is now. *)
Definition this : M DataFrame := fun st => (st, Returned (frame st)).

(** An expression over the frame. *)
Definition eval {A} (e : DataFrame -> result A) : M A :=
  fun st => (st, e (frame st)).

(** A statement that updates the frame in place. *)
Definition update (f : DataFrame -> result DataFrame) : M unit :=
  fun st =>
    match f (frame st) with
    | Returned df' => (mkState df' (stdout st), Returned tt)
    | Raised e => (st, Raised e)
    end.

(** [df.head(n)] *)
Definition head (n : nat) (df : DataFrame) : DataFrame :=
  (fun col => (col.1, take n col.2)) <$> df.

(** [df.isnull().sum()] *)
Definition missing_counts (df : DataFrame) : list (string * nat) :=
  (fun col => (col.1, length (List.filter isnull col.2))) <$> df.

Definition same_pair (a b : cell * cell) : bool :=
  Series_.same_key a.1 b.1 && Series_.same_key a.2 b.2.

(** [df.duplicated(subset=[c1, c2], keep=False)]: true at every row
    whose pair of keys occurs more than once. *)
Definition duplicated_pairs (keys : list (cell * cell)) : list bool :=
  (fun k => (1 <? length (List.filter (same_pair k) keys))%nat) <$> keys.

(** [date_column = "Date of Joining" if ... else "Date_of_Joining"] *)
Definition date_column (df : DataFrame) : string :=
  if bool_decide ("Date of Joining" ∈ DF.columns df)
  then "Date of Joining" else "Date_of_Joining".

(** A specification of a computation started on the frame [X]: [Q]
    holds of the value and the frame when it returns, [E] of the frame
    when it raises. *)
Definition hoare {A} (X : DataFrame) (m : M A)
    (Q : A -> DataFrame -> Prop) (E : DataFrame -> Prop) : Prop :=
  forall console,
    match m (mkState X console) with
    | (st', Returned a) => Q a (frame st')
    | (st', Raised _) => E (frame st')
    end.

Section WithParser.
Context `{DateParser}.

Definition profile_data : M DataFrame :=
  print (Text "=== Data Profiling Report ===");;
  (* 1. General information *)
  df ← this;
  print (Shape (DF.nrows df) (length (DF.columns df)));;
  print (Text "First few records:");;
  print (Frame (head 5 df));;
  (* 2. Missing Values Analysis *)
  print (Text "Missing Values per Column:");;
  print (Counts (missing_counts df));;
  (* 3. Statistical Summary for Numeric Columns *)
  print (Text "Statistical Summary for Numeric Columns:");;
  eval (fun df => match df with
                  | [] => Raised (ValueError "Cannot describe a DataFrame without columns")
                  | _ => Returned tt
                  end);;
  print (Describe df);;
  (* 4. Duplicate Employee IDs and Names *)
  let id_column := id_column df in
  let name_column := "Name" in
  ids ← eval (fun df => DF.getitem df id_column);
  names ← eval (fun df => DF.getitem df name_column);
  let duplicates := DF.select_rows (duplicated_pairs (zip ids names)) df in
  (if negb (DF.nrows duplicates =? 0)%nat
   then print (Text "Duplicate Employee ID and Name records found:");;
        print (Frame duplicates)
   else print (Text "No duplicate Employee ID and Name records found."));;
  (* 5. Date Format Validation *)
  let date_column := date_column df in
  dates ← eval (fun df => DF.getitem df date_column);
  update (fun df => mret (DF.setitem df "Parsed_Date"
                            (Series_.of_parsed (to_datetime dates))));;
  parsed ← eval (fun df => DF.getitem df "Parsed_Date");
  dates ← eval (fun df => DF.getitem df date_column);
  df ← this;
  let invalid_dates :=
    DF.select_rows
      (zip_with andb (Series_.isnull_mask parsed) (notnull <$> dates)) df in
  (if negb (DF.nrows invalid_dates =? 0)%nat
   then print (Text "Records with invalid date format:");;
        listing ← eval (fun _ => DF.project invalid_dates [id_column; date_column]);
        print (Frame listing)
   else print (Text "All values are valid or missing."));;
  update (fun df => DF.drop df "Parsed_Date");;
  (* 6. Check for Inconsistencies in Department Field *)
  print (Text "Unique Department values (raw):");;
  dept ← eval (fun df => DF.getitem df "Department");
  print (Values (Series_.unique dept));;
  this.

End WithParser.

End Profiler.

(* ===================================================================== *)
(** ** The relational store *)
(* ===================================================================== *)

(** The MySQL table [employee_data], as the loader's connection sees it.
    The store is not part of the program: this is the interface the
    program uses, with [Employee_ID INT PRIMARY KEY]. *)
Module Store.

Definition row := list cell.

(** [employee_data]: the committed rows; [pending]: the rows the open
    transaction of the connection has inserted and not yet committed. *)
Record t := mk { employee_data : list row; pending : list row }.

Definition key (r : row) : option cell := head r.

Definition has_key (k : Z) (rs : list row) : bool :=
  existsb (fun r => bool_decide (key r = Some (Int k))) rs.

(** One INSERT: the primary key is an integer, not NULL, and new. *)
Definition insert (st : t) (r : row) : result t :=
  match key r with
  | Some (Int k) =>
      if has_key k (employee_data st ++ pending st)
      then Raised (IntegrityError "Duplicate entry for key 'employee_data.PRIMARY'")
      else Returned (mk (employee_data st) (pending st ++ [r]))
  | Some PyNone | Some NaN | Some NaT | None =>
      Raised (IntegrityError "Column 'Employee_ID' cannot be null")
  | Some _ => Raised (DataError "Incorrect integer value for column 'Employee_ID'")
  end.

Fixpoint insert_all (st : t) (rs : list row) : result t :=
  match rs with
  | [] => mret st
  | r :: rs' => st' ← insert st r; insert_all st' rs'
  end.

(** [cursor.executemany(insert_sql, rows)]: the connector sends the rows
    as one INSERT statement, which the store applies entirely or not at
    all. *)
Definition executemany (st : t) (rs : list row) : t * result unit :=
  match insert_all st rs with
  | Returned st' => (st', Returned tt)
  | Raised e => (st, Raised e)
  end.

(** [db.commit()] *)
Definition commit (st : t) : t := mk (employee_data st ++ pending st) [].

(** [CREATE TABLE IF NOT EXISTS employee_data]: the table exists, since
    [setup_database] has created it. *)
Definition create_table_if_not_exists (st : t) : t := st.

(** [SELECT * FROM employee_data] through another connection. *)
Definition select_all (st : t) : list row := employee_data st.

End Store.

(* ===================================================================== *)
(** ** The canonical loader: [load_clean_data_to_final_table] *)
(* ===================================================================== *)

Module Loader.

(** What the loader acts on: the store, the console and the exported
    file [employee_db.csv]. *)
Record world := mkWorld {
  db : Store.t;
  stdout : list printed;
  employee_db_csv : option (list Store.row)
}.

Definition print (p : printed) (w : world) : world :=
  mkWorld (db w) (stdout w ++ [p]) (employee_db_csv w).

Definition with_db (st : Store.t) (w : world) : world :=
  mkWorld st (stdout w) (employee_db_csv w).

(** The columns of the INSERT statement, after the identifier. *)
Definition insert_columns : list string :=
  [ "Name"; "Age"; "Department"; "Date_of_Joining"; "Years_of_Experience";
    "Country"; "Salary"; "Performance_Rating" ].

(** [None if pd.isna(x) else x] *)
Definition none_if_na (x : cell) : cell := if isnull x then PyNone else x.

(** [cleaned_df.where(pd.notnull(cleaned_df), None)] *)
Definition where_notnull (df : DataFrame) : DataFrame :=
  (fun col : string * Series => (col.1, none_if_na <$> col.2)) <$> df.

(** The list [data_to_insert] (lines 255-263). *)
Definition data_to_insert (cleaned_df : DataFrame) : result (list Store.row) :=
  let id_column := id_column cleaned_df in
  let cleaned_df := where_notnull cleaned_df in
  selected ← DF.project cleaned_df (id_column :: insert_columns);
  mret ((fun r : Store.row => none_if_na <$> r) <$> DF.values selected).

(** The try block of lines 270-275. *)
Definition insert_clean_data (rows : list Store.row) (w : world) : world :=
  match Store.executemany (db w) rows with
  | (st, Returned _) =>
      let w := with_db (Store.commit st) w in
      print (Text "Clean data inserted into employee_data table successfully!") w
  | (st, Raised e) =>
      print (Failure "An error occurred when inserting clean data" e) (with_db st w)
  end.

(** The try blocks of lines 278-293: the store is read through a new
    connection and the rows are exported. *)
Definition validate_and_export (w : world) : world :=
  let final_df := Store.select_all (db w) in
  let w := print (Text "Final Table Data (employee_data) Preview:") w in
  let w := print (Rows (take 5 final_df)) w in
  let w := print (Number "Total Records in employee_data" (length final_df)) w in
  let w := mkWorld (db w) (stdout w) (Some final_df) in
  print (Text "Cleaned data exported to 'employee_db.csv'.") w.

Definition load_clean_data_to_final_table (cleaned_df : DataFrame) (w : world)
  : world * result unit :=
  let w := with_db (Store.commit (Store.create_table_if_not_exists (db w))) w in
  match data_to_insert cleaned_df with
  | Raised e => (w, Raised e)
  | Returned rows =>
      let w := print (Text "Sample data to insert:") w in
      let w := print (Rows (take 5 rows)) w in
      let w := insert_clean_data rows w in
      let w := validate_and_export w in
      (w, Returned tt)
  end.

End Loader.

(* ===================================================================== *)
(** ** The stages of [main] on the staged table *)
(* ===================================================================== *)

Module Main.

Section WithParser.
Context `{DateParser}.


(** [clean_data] with its console (lines 144-216): between the third
    and the fourth step the function prints how many rows the third has
    dropped (lines 169-173). An exception of the first three steps comes
    before the line, one of the fourth after it. *)
Definition clean_data_with_report (df : DataFrame) (w : Loader.world)
  : Loader.world * result DataFrame :=
  match (df ← resolve_missing_values df; standardize_date_format df) with
  | Raised e => (w, Raised e)
  | Returned df =>
      let before_count := DF.nrows df in
      match deduplicate_records df with
      | Raised e => (w, Raised e)
      | Returned df =>
          let after_count := DF.nrows df in
          let w := Loader.print
                     (Number "Deduplicated records: dropped duplicate rows"
                        (before_count - after_count)) w in
          (w, normalize_text_fields df)
      end
  end.


End WithParser.

End Main.

(* ===================================================================== *)
(** ** The cleaning rules, cell by cell *)
(* ===================================================================== *)

(** The rules of the normaliser as the specification words them: what
    becomes of one cell of each column, and which rows are kept. The
    properties below relate [clean_data] to them. *)
Module Rules.

(** "Unknown" if missing. *)
Definition fill_unknown (x : cell) : cell :=
  if isnull x then Str "Unknown" else x.

(** Name and Country: the default, then strip and title case. *)
Definition name_rule (x : cell) : cell :=
  Str (PyStr.title (PyStr.strip (py_str (fill_unknown x)))).

(** Years_of_Experience: -1 if missing. *)
Definition years_rule (x : cell) : cell :=
  if isnull x then Int (-1) else x.

(** The raw department with all whitespace removed, upper-cased. *)
Definition department_key (x : cell) : string :=
  PyStr.upper (PyStr.remove_whitespace (py_str x)).

(** The label of the map under a key, the key itself when it has none. *)
Definition canonical (key : string) : string :=
  default key (dept_mapping !! key).

Definition department_rule (x : cell) : cell :=
  Str (canonical (department_key x)).

(** The ISO day of a parse result, 1900-01-01 for NaT. *)
Definition iso_day (o : option Timestamp) : cell :=
  Str (Calendar.strftime (default Calendar.epoch_1900 o)).

(** Date_of_Joining: the column is parsed as a whole. *)
Definition date_rule `{DateParser} (joined : Series) : Series :=
  iso_day <$> to_datetime joined.

(** What the rules make of the column labelled [c]. *)
Definition column_rule `{DateParser} (c : string) (s : Series) : Series :=
  if bool_decide (c = "Name") then name_rule <$> s
  else if bool_decide (c = "Country") then name_rule <$> s
  else if bool_decide (c = "Performance_Rating") then fill_unknown <$> s
  else if bool_decide (c = "Years_of_Experience") then years_rule <$> s
  else if bool_decide (c = "Department") then department_rule <$> s
  else if bool_decide (c = "Date_of_Joining") then date_rule s
  else s.

(** Step 1 on the column labelled [c]. *)
Definition missing_rule (c : string) (s : Series) : Series :=
  if bool_decide (c = "Name") then fill_unknown <$> s
  else if bool_decide (c = "Performance_Rating") then fill_unknown <$> s
  else if bool_decide (c = "Country") then fill_unknown <$> s
  else if bool_decide (c = "Years_of_Experience") then years_rule <$> s
  else s.

(** Strip and title case of the text of a cell. *)
Definition title_rule (x : cell) : cell :=
  Str (PyStr.title (PyStr.strip (py_str x))).

(** Step 4 on the column labelled [c]. *)
Definition text_rule (c : string) (s : Series) : Series :=
  if bool_decide (c = "Name") then title_rule <$> s
  else if bool_decide (c = "Department") then department_rule <$> s
  else if bool_decide (c = "Country") then title_rule <$> s
  else s.

(** The rows deduplication keeps: those whose identifier did not occur
    in an earlier row. *)
Definition keep_first (ids : Series) : list bool :=
  negb <$> Series_.duplicated ids.

(** The positions where a mask is true, in increasing order. *)
Fixpoint positions_from (i : nat) (mask : list bool) : list nat :=
  match mask with
  | [] => []
  | b :: mask' =>
      if b then i :: positions_from (S i) mask' else positions_from (S i) mask'
  end.

Definition positions (mask : list bool) : list nat := positions_from 0 mask.

(** The columns [clean_data] reads by name. *)
Definition required_columns (df : DataFrame) : list string :=
  [ "Name"; "Performance_Rating"; "Country"; "Years_of_Experience";
    "Date_of_Joining"; "Department"; id_column df ].

(** The schema of the canonical table. *)
Definition canonical_schema : list string :=
  [ "Employee_ID"; "Name"; "Age"; "Department"; "Date_of_Joining";
    "Years_of_Experience"; "Country"; "Salary"; "Performance_Rating" ].

(** The columns of [SELECT * FROM employee_data_source]: the surrogate
    key of the staging table, then the nine columns of the source. *)
Definition staging_schema : list string := "id" :: canonical_schema.

End Rules.

(* ===================================================================== *)
(** ** Tables of the examples *)
(* ===================================================================== *)

Module Examples.

(** The scenario of the specification as the staging store returns it:
    two rows for employee 1, one for employee 2. *)
Definition staged : DataFrame :=
  [ ("id", [Int 1; Int 2; Int 3]);
    ("Employee_ID", [Int 1; Int 1; Int 2]);
    ("Name", [Str "john doe"; Str "John Doe"; Str "  jane "]);
    ("Age", [Int 30; Int 30; Int 28]);
    ("Department", [Str "MARKNG"; Str "Marketing"; Str "oprations"]);
    ("Date_of_Joining", [Str "13-01-2022"; Str "2022-01-13"; Str "not-a-date"]);
    ("Years_of_Experience", [Int 5; Int 5; NaN]);
    ("Country", [Str "usa"; Str "USA"; PyNone]);
    ("Salary", [Int 50000; Int 50000; Int 40000]);
    ("Performance_Rating", [Str "Good"; Str "Good"; PyNone]) ].

(** What [clean_data] makes of it under the reference parser. *)
Definition cleaned : DataFrame :=
  [ ("id", [Int 1; Int 3]);
    ("Employee_ID", [Int 1; Int 2]);
    ("Name", [Str "John Doe"; Str "Jane"]);
    ("Age", [Int 30; Int 28]);
    ("Department", [Str "MARKETING"; Str "OPERATIONS"]);
    ("Date_of_Joining", [Str "1900-01-01"; Str "1900-01-01"]);
    ("Years_of_Experience", [Int 5; Int (-1)]);
    ("Country", [Str "Usa"; Str "Unknown"]);
    ("Salary", [Int 50000; Int 40000]);
    ("Performance_Rating", [Str "Good"; Str "Unknown"]) ].

(** Rows without an identifier, a name, a department, a date and the
    rest: the first and the third have nothing but the surrogate key. *)
Definition sparse : DataFrame :=
  [ ("id", [Int 1; Int 2; Int 3]);
    ("Employee_ID", [NaN; Int 7; NaN]);
    ("Name", [PyNone; Str "ann lee"; PyNone]);
    ("Age", [NaN; Int 41; NaN]);
    ("Department", [PyNone; Str "Fin"; PyNone]);
    ("Date_of_Joining", [PyNone; Str "2020-02-29"; PyNone]);
    ("Years_of_Experience", [NaN; Int 12; NaN]);
    ("Country", [PyNone; Str " india"; PyNone]);
    ("Salary", [NaN; Int 90000; NaN]);
    ("Performance_Rating", [PyNone; Str "Top"; PyNone]) ].

(** What [clean_data] makes of it under the reference parser. *)
Definition sparse_cleaned : DataFrame :=
  [ ("id", [Int 1; Int 2]);
    ("Employee_ID", [NaN; Int 7]);
    ("Name", [Str "Unknown"; Str "Ann Lee"]);
    ("Age", [NaN; Int 41]);
    ("Department", [Str "NONE"; Str "FINANCE"]);
    ("Date_of_Joining", [Str "1900-01-01"; Str "2020-02-29"]);
    ("Years_of_Experience", [Int (-1); Int 12]);
    ("Country", [Str "Unknown"; Str "India"]);
    ("Salary", [NaN; Int 90000]);
    ("Performance_Rating", [Str "Unknown"; Str "Top"]) ].

(** A table that already has a column labelled like the working column
    of the profiler. *)
Definition with_parsed_date : DataFrame :=
  [ ("Employee_ID", [Int 1]);
    ("Name", [Str "Ann"]);
    ("Department", [Str "HR"]);
    ("Date_of_Joining", [Str "2020-02-29"]);
    ("Parsed_Date", [Str "kept by the caller"]) ].

(** A cleaned table that carries the same identifier twice. *)
Definition twice : DataFrame :=
  [ ("Employee_ID", [Int 1; Int 1]);
    ("Name", [Str "Ann"; Str "Bob"]);
    ("Age", [Int 30; Int 31]);
    ("Department", [Str "HR"; Str "IT"]);
    ("Date_of_Joining", [Str "2020-02-29"; Str "2021-03-01"]);
    ("Years_of_Experience", [Int 5; Int 6]);
    ("Country", [Str "Usa"; Str "Usa"]);
    ("Salary", [Int 50000; Int 60000]);
    ("Performance_Rating", [Str "Good"; Str "Good"]) ].

(** An empty store, nothing printed, nothing exported. *)
Definition fresh : Loader.world :=
  Loader.mkWorld (Store.mk [] []) [] None.

(** The staging table before any row is loaded. *)
Definition empty_staged : DataFrame :=
  (fun c : string => (c, [])) <$> Rules.staging_schema.

(** A store that holds employee 9 already. *)
Definition occupied : Loader.world :=
  Loader.mkWorld
    (Store.mk [ [Int 9; Str "Old Hand"; Int 60; Str "HR"; Str "1999-01-01";
                 Int 30; Str "Usa"; Int 70000; Str "Good"] ] [])
    [] None.

End Examples.

(* ===================================================================== *)
(** ** Labels *)
(* ===================================================================== *)

Module Labels.

(** The labels the map of departments can give: the values of
    [dept_mapping]. *)
Definition canonical_labels : list string :=
  [ "OPERATIONS"; "CUSTOMER SUPPORT"; "HR"; "IT"; "LOGISTICS"; "LEGAL";
    "MARKETING"; "SALES"; "FINANCE"; "R&D" ].

(** The columns a rule of [clean_data] rewrites. *)
Definition rewritten_columns : list string :=
  [ "Name"; "Performance_Rating"; "Country"; "Years_of_Experience";
    "Date_of_Joining"; "Department" ].

(** The columns [profile_data] reads by name. *)
Definition profiled_columns (df : DataFrame) : list string :=
  [ id_column df; "Name"; Profiler.date_column df; "Department" ].


End Labels.

(* ===================================================================== *)
(** * Properties *)
(* ===================================================================== *)

(** ** Text *)

Module PyStrFacts.
Import PyStr.

Ltac by_cases c :=
  destruct c as [[|] [|] [|] [|] [|] [|] [|] [|]];
  try reflexivity; try discriminate.

Lemma isspace_toupper c : isspace (toupper c) = isspace c.
Proof. by_cases c. Qed.

Lemma toupper_idem c : toupper (toupper c) = toupper c.
Proof. by_cases c. Qed.

Lemma upper_idem s : upper (upper s) = upper s.
Proof. induction s as [|c s IH]; simpl; [done|]. by rewrite toupper_idem, IH. Qed.

Lemma no_space_remove_whitespace s : no_space (remove_whitespace s) = true.
Proof.
  induction s as [|c s IH]; simpl; [done|].
  destruct (isspace c) eqn:E; simpl; [done|]. by rewrite E, IH.
Qed.


Lemma no_space_upper s : no_space (upper s) = no_space s.
Proof. induction s as [|c s IH]; simpl; [done|]. by rewrite isspace_toupper, IH. Qed.







Lemma no_leading_space_lstrip s : no_leading_space (lstrip s) = true.
Proof.
  induction s as [|c s IH]; simpl; [done|].
  destruct (isspace c) eqn:E; [done|]. simpl. by rewrite E.
Qed.

Lemma lstrip_id s : no_leading_space s = true -> lstrip s = s.
Proof. destruct s as [|c s]; simpl; [done|]. by destruct (isspace c). Qed.

Lemma no_leading_space_rstrip s :
  no_leading_space s = true -> no_leading_space (rstrip s) = true.
Proof.
  destruct s as [|c s]; [done|]. cbn [no_leading_space rstrip]. intros Hc.
  destruct (rstrip s); [|done]. apply negb_true_iff in Hc.
  rewrite Hc. cbn [no_leading_space]. by rewrite Hc.
Qed.


Lemma rstrip_cons c s :
  rstrip (String c s)
  = match rstrip s with
    | EmptyString => if isspace c then EmptyString else String c EmptyString
    | r => String c r
    end.
Proof. reflexivity. Qed.

Lemma rstrip_idem s : rstrip (rstrip s) = rstrip s.
Proof.
  induction s as [|c s IH]; [done|]. rewrite rstrip_cons.
  destruct (rstrip s) as [|d r] eqn:E.
  - destruct (isspace c) eqn:Ec; [done|]. rewrite rstrip_cons. simpl. by rewrite Ec.
  - rewrite rstrip_cons, IH. done.
Qed.

Lemma strip_idem s : strip (strip s) = strip s.
Proof.
  unfold strip. rewrite (lstrip_id (rstrip _)).
  - apply rstrip_idem.
  - apply no_leading_space_rstrip, no_leading_space_lstrip.
Qed.



End PyStrFacts.

(** ** Calendar days *)

Module CalendarFacts.
Import Calendar.

Local Ltac Zify.zify_post_hook ::= Z.div_mod_to_equations.

Lemma digit_cases n :
  exists k, (k < 10)%nat /\ n mod 10 = k /\ digit n = ascii_of_nat (48 + k).
Proof.
  exists (n mod 10). split; [apply Nat.mod_upper_bound; lia|done].
Qed.

Lemma isdigit_digit n : isdigit (digit n) = true.
Proof.
  destruct (digit_cases n) as (k & Hk & _ & ->).
  do 10 (destruct k as [|k]; [reflexivity|]). lia.
Qed.

Lemma digit_value_digit n : IsoParser.digit_value (digit n) = n mod 10.
Proof.
  destruct (digit_cases n) as (k & Hk & -> & ->).
  do 10 (destruct k as [|k]; [reflexivity|]). lia.
Qed.

Lemma strftime_unfold t :
  strftime t
  = String (digit (year t / 1000)) (String (digit (year t / 100))
      (String (digit (year t / 10)) (String (digit (year t))
      (String "-" (String (digit (month t / 10)) (String (digit (month t))
      (String "-" (String (digit (day t / 10)) (String (digit (day t))
       EmptyString))))))))).
Proof. reflexivity. Qed.

(** [strftime] writes the pattern YYYY-MM-DD. *)
Lemma matches_ymd_strftime t : matches_ymd (strftime t) = true.
Proof.
  rewrite strftime_unfold. unfold matches_ymd.
  rewrite !isdigit_digit. reflexivity.
Qed.

Lemma valid_bounds t :
  valid t = true ->
  (1677 <= year t <= 2262 /\ 1 <= month t <= 12 /\ 1 <= day t <= 31)%nat.
Proof.
  destruct t as [y m d]. unfold valid, leb, first_day, last_day. cbn [year month day].
  intros Hv.
  assert (days_in_month y m <= 31)%nat.
  { unfold days_in_month.
    do 13 (destruct m as [|m]; [try destruct (is_leap y); lia|]). lia. }
  lia.
Qed.

Lemma decimal4 y :
  (y < 100 * 100)%nat ->
  (1000 * ((y / 1000) mod 10) + 100 * ((y / 100) mod 10)
   + 10 * ((y / 10) mod 10) + y mod 10 = y)%nat.
Proof. intros Hy. lia. Qed.

Lemma decimal2 m : (m < 100)%nat -> (10 * ((m / 10) mod 10) + m mod 10 = m)%nat.
Proof. intros Hm. lia. Qed.

(** The ISO rendering of a valid day parses back to that day. *)
Lemma parse_ymd_strftime t :
  valid t = true -> IsoParser.parse_ymd (strftime t) = Some t.
Proof.
  intros Hv. pose proof (valid_bounds t Hv) as (Hy & Hm & Hd).
  pose proof (matches_ymd_strftime t) as Hp.
  rewrite strftime_unfold in Hp |- *.
  cbv beta iota delta [IsoParser.parse_ymd].
  rewrite Hp, !digit_value_digit.
  rewrite decimal4 by lia. rewrite !decimal2 by lia.
  destruct t as [y m d]. cbn [year month day] in *. by rewrite Hv.
Qed.

Lemma parse_ymd_valid s t : IsoParser.parse_ymd s = Some t -> valid t = true.
Proof.
  cbv beta iota zeta delta [IsoParser.parse_ymd].
  do 10 (destruct s as [|? s]; [done|]).
  destruct s; [|done].
  destruct (matches_ymd _); [|done].
  match goal with
  | |- (if valid ?u then _ else _) = _ -> _ => destruct (valid u) eqn:E
  end; [|done].
  intros [= <-]. exact E.
Qed.

Lemma parse_length s : length (IsoParser.parse s) = length s.
Proof. apply length_fmap. Qed.

Lemma parse_null (s : Series) i x :
  s !! i = Some x -> isnull x = true -> IsoParser.parse s !! i = Some None.
Proof.
  intros Hi Hx. unfold IsoParser.parse. rewrite list_lookup_fmap, Hi.
  by destruct x.
Qed.

Lemma parse_valid (s : Series) i t :
  IsoParser.parse s !! i = Some (Some t) -> valid t = true.
Proof.
  unfold IsoParser.parse. rewrite list_lookup_fmap.
  destruct (s !! i) as [x|]; [|done]. cbn [fmap option_fmap option_map].
  intros [= Hx]. destruct x; try discriminate.
  - by apply parse_ymd_valid in Hx.
  - destruct (valid t0) eqn:E; [|discriminate]. by injection Hx as <-.
Qed.

Lemma parse_iso ts :
  Forall (fun t => valid t = true) ts ->
  IsoParser.parse ((fun t => Str (strftime t)) <$> ts) = Some <$> ts.
Proof.
  induction 1 as [|t ts Ht _ IH]; [done|].
  cbn [fmap list_fmap] in *. unfold IsoParser.parse in *. cbn [fmap list_fmap].
  by rewrite parse_ymd_strftime, IH.
Qed.

End CalendarFacts.

(** The reference parser meets the interface. *)
Definition iso_parser : DateParser :=
  {| to_datetime := IsoParser.parse;
     to_datetime_length := CalendarFacts.parse_length;
     to_datetime_null := CalendarFacts.parse_null;
     to_datetime_valid := CalendarFacts.parse_valid;
     to_datetime_iso := CalendarFacts.parse_iso |}.

(** ** Data frames *)

Module DFFacts.
Import DF.

Lemma lookup_Some_columns c (df : DataFrame) s : lookup c df = Some s -> c ∈ columns df.
Proof.
  induction df as [|[n s0] df IH]; simpl; [done|].
  case_bool_decide; intros Hs; [subst; left|right; auto].
Qed.

Lemma lookup_None_columns c (df : DataFrame) : lookup c df = None <-> c ∉ columns df.
Proof.
  induction df as [|[n s0] df IH]; simpl.
  - split; [intros _; apply not_elem_of_nil|done].
  - case_bool_decide; rewrite not_elem_of_cons.
    + split; [done|]. intros [? _]. congruence.
    + rewrite IH. split; [intros Hc; split; [congruence|done]|by intros [_ Hc]].
Qed.

Lemma columns_lookup c (df : DataFrame) : c ∈ columns df -> is_Some (lookup c df).
Proof.
  intros Hc. destruct (lookup c df) eqn:E; [eauto|].
  by apply lookup_None_columns in E.
Qed.

Lemma getitem_Returned (df : DataFrame) c s :
  getitem df c = Returned s <-> lookup c df = Some s.
Proof. unfold getitem. destruct (lookup c df); split; congruence. Qed.

Lemma lookup_setitem c' (df : DataFrame) c s :
  lookup c' (setitem df c s) = if bool_decide (c = c') then Some s else lookup c' df.
Proof.
  induction df as [|[n s0] df IH]; simpl.
  - done.
  - repeat (case_bool_decide; simpl); try congruence;
      try (rewrite ?IH; repeat case_bool_decide; congruence).
Qed.

Lemma columns_setitem_in (df : DataFrame) c s :
  c ∈ columns df -> columns (setitem df c s) = columns df.
Proof.
  induction df as [|[n s0] df IH]; simpl.
  - intros Hc. by apply elem_of_nil in Hc.
  - intros Hc. case_bool_decide; simpl; [done|].
    f_equal. apply IH. apply elem_of_cons in Hc as [Hc|Hc]; [congruence|done].
Qed.

Lemma columns_setitem_notin (df : DataFrame) c s :
  c ∉ columns df -> columns (setitem df c s) = (columns df ++ [c])%list.
Proof.
  induction df as [|[n s0] df IH]; simpl; [done|].
  rewrite not_elem_of_cons. intros [Hn Hc].
  case_bool_decide; [congruence|]. simpl. f_equal. by apply IH.
Qed.

Lemma setitem_id (df : DataFrame) c s : lookup c df = Some s -> setitem df c s = df.
Proof.
  induction df as [|[n s0] df IH]; simpl; [done|].
  case_bool_decide; [congruence|]. intros Hs. f_equal. by apply IH.
Qed.

Lemma lookup_remove c' c (df : DataFrame) :
  lookup c' (remove c df) = if bool_decide (c = c') then None else lookup c' df.
Proof.
  induction df as [|[n s0] df IH]; simpl.
  - by case_bool_decide.
  - repeat (case_bool_decide; simpl); try congruence;
      try (rewrite ?IH; repeat case_bool_decide; congruence).
Qed.

Lemma columns_remove c (df : DataFrame) :
  columns (remove c df) = filter (fun n => n ≠ c) (columns df).
Proof.
  induction df as [|[n s0] df IH]; simpl; [done|].
  rewrite filter_cons. case_bool_decide; case_decide; simpl; congruence.
Qed.

Lemma filter_ne_id c (l : list string) : c ∉ l -> filter (fun n => n ≠ c) l = l.
Proof.
  induction l as [|n l IH]; [done|]. rewrite not_elem_of_cons. intros [Hn Hc].
  rewrite filter_cons. case_decide; [|congruence]. by rewrite IH.
Qed.

Lemma filter_columns_setitem (df : DataFrame) c s :
  filter (fun n => n ≠ c) (columns (setitem df c s))
  = filter (fun n => n ≠ c) (columns df).
Proof.
  induction df as [|[n s0] df IH]; simpl.
  - rewrite filter_cons. by case_decide.
  - case_bool_decide; simpl; [done|]. rewrite !filter_cons, IH. done.
Qed.

Lemma drop_Returned (df : DataFrame) c out :
  drop df c = Returned out -> c ∈ columns df /\ out = remove c df.
Proof. unfold drop. case_bool_decide; [|done]. by intros [= <-]. Qed.

Lemma lookup_select_rows c mask (df : DataFrame) :
  lookup c (select_rows mask df) = Series_.select mask <$> lookup c df.
Proof.
  induction df as [|[n s0] df IH]; simpl; [done|].
  case_bool_decide; [done|]. apply IH.
Qed.

Lemma columns_select_rows mask (df : DataFrame) :
  columns (select_rows mask df) = columns df.
Proof.
  unfold columns, select_rows. rewrite <- list_fmap_compose.
  by apply list_fmap_ext.
Qed.

(** Two frames with the same labels, distinct, and the same column under
    each label are equal. *)
Lemma frame_ext (a b : DataFrame) :
  NoDup (columns a) -> columns a = columns b ->
  (forall c, lookup c a = lookup c b) -> a = b.
Proof.
  revert b. induction a as [|[n s] a IH]; intros [|[n' s'] b]; simpl; try done.
  intros Hnd [= <- Hcols] Hl. apply NoDup_cons in Hnd as [Hn Hnd].
  pose proof (Hl n) as Hn'. rewrite !bool_decide_eq_true_2 in Hn' by done.
  injection Hn' as <-. f_equal. apply IH; [done|done|].
  intros c. specialize (Hl c). destruct (decide (n = c)) as [<-|Hne].
  - transitivity (@None Series).
    + by apply lookup_None_columns.
    + symmetry. apply lookup_None_columns. by rewrite <- Hcols.
  - by rewrite !bool_decide_eq_false_2 in Hl by done.
Qed.

End DFFacts.

(** ** Series *)

Module SeriesFacts.
Import Series_.

Lemma select_fmap {A B} (f : A -> B) mask (s : list A) :
  select mask (f <$> s) = f <$> select mask s.
Proof.
  revert s. induction mask as [|b mask IH]; intros [|x s]; simpl; try done.
  destruct b; simpl; by rewrite IH.
Qed.

Lemma select_nil {A} mask : select mask (@nil A) = [].
Proof. by destruct mask. Qed.

Lemma select_all {A} n (s : list A) :
  (length s <= n)%nat -> select (replicate n true) s = s.
Proof.
  revert s. induction n as [|n IH]; intros [|x s]; simpl; try done; try lia.
  intros Hn. f_equal. apply IH. lia.
Qed.

Lemma length_select_same {A B} mask (s : list A) (s' : list B) :
  length s = length s' -> length (select mask s) = length (select mask s').
Proof.
  revert s s'. induction mask as [|b mask IH]; intros [|x s] [|y s']; simpl; try done.
  intros [= Hl]. destruct b; simpl; auto.
Qed.

Lemma str_method_astype_str f (s : Series) :
  str_method f (astype_str s) = (fun x => Str (f (py_str x))) <$> s.
Proof. unfold str_method, astype_str. by rewrite <- list_fmap_compose. Qed.

Lemma str_method_str_method f g (s : Series) :
  str_method f (str_method g (astype_str s))
  = (fun x => Str (f (g (py_str x)))) <$> s.
Proof.
  rewrite str_method_astype_str. unfold str_method.
  by rewrite <- list_fmap_compose.
Qed.

(** The lookup in the map followed by the fallback on the key. *)
Lemma fillna_series_map_dict d (g : cell -> string) (s : Series) :
  fillna_series (map_dict d ((fun x => Str (g x)) <$> s)) ((fun x => Str (g x)) <$> s)
  = (fun x => Str (default (g x) (d !! g x))) <$> s.
Proof.
  unfold map_dict. induction s as [|x s IH]; [done|].
  cbn [fmap list_fmap fillna_series]. rewrite IH. by destruct (d !! g x).
Qed.

(** After the fallback is written over the NaT of a parsed column,
    [strftime] applies to every element. *)
Lemma dt_strftime_filled (l : list (option Timestamp)) :
  dt_strftime (assign_where (isnull_mask (of_parsed l)) (Ts Calendar.epoch_1900)
                 (of_parsed l))
  = Returned (Rules.iso_day <$> l).
Proof.
  induction l as [|o l IH]; [done|].
  cbn [of_parsed isnull_mask fmap list_fmap assign_where dt_strftime] in *.
  unfold of_parsed, isnull_mask in IH. rewrite IH. by destruct o.
Qed.

Lemma same_key_sym a b : same_key a b = same_key b a.
Proof.
  unfold same_key. rewrite (andb_comm (isnull a)). f_equal.
  apply bool_decide_ext. split; congruence.
Qed.

Lemma same_key_null a b : isnull a = true -> same_key a b = isnull b.
Proof.
  unfold same_key. intros Ha. rewrite Ha. simpl.
  case_bool_decide; [subst; by rewrite Ha|done].
Qed.

End SeriesFacts.

(** ** The steps of [clean_data] *)

Lemma bind_Returned {A B} (m : result A) (k : A -> result B) out :
  m ≫= k = Returned out -> exists a, m = Returned a /\ k a = Returned out.
Proof. destruct m as [a|e]; [eauto|done]. Qed.

Lemma Returned_inj {A} (a b : A) : Returned a = Returned b -> a = b.
Proof. congruence. Qed.

Lemma Some_inj {A} (a b : A) : Some a = Some b -> a = b.
Proof. congruence. Qed.

(** Reads [x ← getitem df c; ...] in a hypothesis as a lookup. *)
Ltac invert_getitem H s Hs :=
  apply bind_Returned in H as (s & Hs & H);
  apply DFFacts.getitem_Returned in Hs.

(** Decides the equalities between column labels in the goal. *)
Ltac decide_labels :=
  repeat match goal with
    | |- context [bool_decide (?a = ?b)] =>
        first [ rewrite (bool_decide_eq_true_2 (a = b)) by reflexivity
              | rewrite (bool_decide_eq_false_2 (a = b)) by (discriminate || congruence) ]
    end.

Ltac decide_labels_in H :=
  repeat match type of H with
    | context [bool_decide (?a = ?b)] =>
        first [ rewrite (bool_decide_eq_true_2 (a = b)) in H by reflexivity
              | rewrite (bool_decide_eq_false_2 (a = b)) in H by (discriminate || congruence) ]
    end.

(** Brings a lookup after assignments back to the frame assigned to. *)
Ltac lookup_back H :=
  repeat rewrite DFFacts.lookup_setitem in H; decide_labels_in H.

(** Rewrites the labels of a frame after assignments to present columns. *)
Ltac columns_unchanged :=
  repeat (rewrite DFFacts.columns_setitem_in
      by (eapply DFFacts.lookup_Some_columns; rewrite ?DFFacts.lookup_setitem;
          decide_labels; first [eassumption | reflexivity])).

Section NormalizerSteps.
Context `{DateParser}.
Import DF DFFacts.

Lemma resolve_missing_values_spec (df out : DataFrame) :
  resolve_missing_values df = Returned out ->
  columns out = columns df
  /\ (forall c, c ∈ ["Name"; "Performance_Rating"; "Country"; "Years_of_Experience"] ->
                c ∈ columns df)
  /\ (forall c, lookup c out = Rules.missing_rule c <$> lookup c df).
Proof.
  unfold resolve_missing_values. intros Hr.
  invert_getitem Hr name Hname.
  invert_getitem Hr rating Hrating.
  invert_getitem Hr country Hcountry.
  invert_getitem Hr years Hyears.
  injection Hr as <-.
  lookup_back Hrating. lookup_back Hcountry. lookup_back Hyears.
  pose proof (lookup_Some_columns _ _ _ Hname).
  pose proof (lookup_Some_columns _ _ _ Hrating).
  pose proof (lookup_Some_columns _ _ _ Hcountry).
  pose proof (lookup_Some_columns _ _ _ Hyears).
  split; [|split].
  - by columns_unchanged.
  - intros c Hc. repeat (apply elem_of_cons in Hc as [->|Hc]; [done|]).
    by apply elem_of_nil in Hc.
  - intros c. rewrite !lookup_setitem. unfold Rules.missing_rule.
    destruct (decide (c = "Years_of_Experience")) as [->|?]; decide_labels;
      [by rewrite Hyears|].
    destruct (decide (c = "Country")) as [->|?]; decide_labels;
      [by rewrite Hcountry|].
    destruct (decide (c = "Performance_Rating")) as [->|?]; decide_labels;
      [by rewrite Hrating|].
    destruct (decide (c = "Name")) as [->|?]; decide_labels;
      [by rewrite Hname|].
    by destruct (lookup c df).
Qed.

Lemma standardize_date_format_spec (df out : DataFrame) :
  standardize_date_format df = Returned out ->
  exists joined,
    lookup "Date_of_Joining" df = Some joined
    /\ columns out = filter (fun n => n ≠ "Date_Parsed") (columns df)
    /\ (forall c, lookup c out =
                  if bool_decide (c = "Date_Parsed") then None
                  else if bool_decide (c = "Date_of_Joining")
                       then Some (Rules.date_rule joined)
                       else lookup c df).
Proof.
  unfold standardize_date_format. intros Hr.
  invert_getitem Hr joined Hjoined.
  invert_getitem Hr parsed Hparsed. lookup_back Hparsed. injection Hparsed as <-.
  unfold loc_setitem in Hr. rewrite lookup_setitem in Hr.
  rewrite (bool_decide_eq_true_2 ("Date_Parsed" = "Date_Parsed")) in Hr by done.
  invert_getitem Hr filled Hfilled. lookup_back Hfilled. injection Hfilled as <-.
  rewrite SeriesFacts.dt_strftime_filled in Hr.
  apply bind_Returned in Hr as (iso & [= <-] & Hr).
  apply drop_Returned in Hr as [_ ->].
  exists joined. split; [done|split].
  - rewrite columns_remove.
    rewrite (columns_setitem_in _ "Date_of_Joining").
    + rewrite (columns_setitem_in _ "Date_Parsed").
      * apply filter_columns_setitem.
      * eapply lookup_Some_columns. rewrite lookup_setitem. by decide_labels.
    + eapply lookup_Some_columns. rewrite !lookup_setitem. decide_labels. done.
  - intros c. rewrite lookup_remove, !lookup_setitem.
    destruct (decide (c = "Date_Parsed")) as [->|?]; decide_labels; [done|].
    destruct (decide (c = "Date_of_Joining")) as [->|?]; decide_labels; done.
Qed.

Lemma deduplicate_records_spec (df out : DataFrame) :
  deduplicate_records df = Returned out ->
  exists ids,
    lookup (id_column df) df = Some ids
    /\ out = select_rows (Rules.keep_first ids) df.
Proof.
  unfold deduplicate_records, drop_duplicates. intros Hr.
  invert_getitem Hr ids Hids. injection Hr as <-. eauto.
Qed.

Lemma normalize_text_fields_spec (df out : DataFrame) :
  normalize_text_fields df = Returned out ->
  columns out = columns df
  /\ (forall c, c ∈ ["Name"; "Department"] -> c ∈ columns df)
  /\ (forall c, lookup c out = Rules.text_rule c <$> lookup c df).
Proof.
  unfold normalize_text_fields. intros Hr.
  invert_getitem Hr name Hname.
  invert_getitem Hr dept Hdept. lookup_back Hdept.
  invert_getitem Hr key Hkey. lookup_back Hkey. apply Some_inj in Hkey as <-.
  invert_getitem Hr fallback Hfallback. lookup_back Hfallback.
  apply Some_inj in Hfallback as <-.
  rewrite !SeriesFacts.str_method_str_method in Hr.
  rewrite SeriesFacts.fillna_series_map_dict in Hr.
  pose proof (lookup_Some_columns _ _ _ Hname).
  pose proof (lookup_Some_columns _ _ _ Hdept).
  assert (forall c, c ∈ ["Name"; "Department"] -> c ∈ columns df) as Hreq.
  { intros c Hin. repeat (apply elem_of_cons in Hin as [->|Hin]; [done|]).
    by apply elem_of_nil in Hin. }
  case_bool_decide as Hcountry.
  - invert_getitem Hr country Hc. lookup_back Hc. apply Returned_inj in Hr as <-.
    rewrite SeriesFacts.str_method_str_method.
    pose proof (lookup_Some_columns _ _ _ Hc).
    split; [|split; [done|]].
    + by columns_unchanged.
    + intros c. rewrite !lookup_setitem. unfold Rules.text_rule.
      destruct (decide (c = "Country")) as [->|?]; decide_labels;
        [by rewrite Hc|].
      destruct (decide (c = "Department")) as [->|?]; decide_labels;
        [by rewrite Hdept|].
      destruct (decide (c = "Name")) as [->|?]; decide_labels;
        [by rewrite Hname|].
      by destruct (lookup c df).
  - apply Returned_inj in Hr as <-.
    assert ("Country" ∉ columns df) as Hno.
    { revert Hcountry. by columns_unchanged. }
    split; [|split; [done|]].
    + by columns_unchanged.
    + intros c. rewrite !lookup_setitem. unfold Rules.text_rule.
      destruct (decide (c = "Department")) as [->|?]; decide_labels;
        [by rewrite Hdept|].
      destruct (decide (c = "Name")) as [->|?]; decide_labels;
        [by rewrite Hname|].
      destruct (decide (c = "Country")) as [->|?]; decide_labels.
      * apply lookup_None_columns in Hno. by rewrite Hno.
      * by destruct (lookup c df).
Qed.

Lemma id_column_cases (df : DataFrame) :
  id_column df = "Employee Id" \/ id_column df = "Employee_ID".
Proof. unfold id_column. case_bool_decide; auto. Qed.

Lemma id_column_filter (df df' : DataFrame) :
  columns df' = filter (fun n => n ≠ "Date_Parsed") (columns df) ->
  id_column df' = id_column df.
Proof.
  intros Hc. unfold id_column. rewrite Hc.
  erewrite bool_decide_ext; [done|].
  rewrite list_elem_of_filter. split; [by intros []|done].
Qed.

Lemma name_rule_compose (s : Series) :
  Rules.title_rule <$> (Rules.fill_unknown <$> s) = Rules.name_rule <$> s.
Proof. by rewrite <- list_fmap_compose. Qed.

(** [clean_data] column by column: the working column is gone, and every
    other column is the rule of its label applied to the input column,
    restricted to the rows whose identifier occurs for the first time. *)
Lemma clean_data_spec (df out : DataFrame) :
  clean_data df = Returned out ->
  exists ids,
    lookup (id_column df) df = Some ids
    /\ (forall c, c ∈ Rules.required_columns df -> c ∈ columns df)
    /\ columns out = filter (fun n => n ≠ "Date_Parsed") (columns df)
    /\ (forall c, lookup c out =
                  if bool_decide (c = "Date_Parsed") then None
                  else (fun s => Series_.select (Rules.keep_first ids)
                                   (Rules.column_rule c s)) <$> lookup c df).
Proof.
  unfold clean_data. intros Hr.
  apply bind_Returned in Hr as (df1 & H1 & Hr).
  apply bind_Returned in Hr as (df2 & H2 & Hr).
  apply bind_Returned in Hr as (df3 & H3 & H4).
  apply resolve_missing_values_spec in H1 as (Hc1 & Hin1 & Hl1).
  apply standardize_date_format_spec in H2 as (joined & Hj & Hc2 & Hl2).
  apply deduplicate_records_spec in H3 as (ids & Hids & ->).
  apply normalize_text_fields_spec in H4 as (Hc4 & Hin4 & Hl4).
  rewrite columns_select_rows in Hc4, Hin4. rewrite Hc1 in Hc2.
  rewrite (id_column_filter df df2) in Hids by done.
  assert (lookup (id_column df) df = Some ids) as Hids0.
  { rewrite Hl2, Hl1 in Hids. unfold Rules.missing_rule in Hids.
    destruct (id_column_cases df) as [E|E]; rewrite E in Hids |- *;
      decide_labels_in Hids; by destruct (lookup _ df). }
  assert (lookup "Date_of_Joining" df = Some joined) as Hj0.
  { rewrite Hl1 in Hj. unfold Rules.missing_rule in Hj. decide_labels_in Hj.
    by destruct (lookup _ df). }
  exists ids. split; [done|split; [|split]].
  - intros c Hc. unfold Rules.required_columns in Hc.
    assert ("Department" ∈ columns df) as Hd.
    { assert ("Department" ∈ columns df2) as Hd
        by (apply Hin4; by repeat constructor).
      rewrite Hc2 in Hd. by apply list_elem_of_filter in Hd as [_ ?]. }
    repeat (apply elem_of_cons in Hc as [->|Hc]);
      try done;
      try (apply Hin1; by repeat constructor);
      try (by eapply lookup_Some_columns).
  - by rewrite Hc4.
  - intros c. rewrite Hl4, lookup_select_rows, Hl2, Hl1.
    unfold Rules.text_rule, Rules.missing_rule, Rules.column_rule.
    destruct (decide (c = "Date_Parsed")) as [->|?]; decide_labels; [done|].
    destruct (decide (c = "Date_of_Joining")) as [->|?]; decide_labels.
    { rewrite Hj0. done. }
    destruct (decide (c = "Name")) as [->|?]; decide_labels.
    { destruct (lookup "Name" df); [|done]. cbn [fmap option_fmap option_map].
      by rewrite !SeriesFacts.select_fmap, name_rule_compose. }
    destruct (decide (c = "Country")) as [->|?]; decide_labels.
    { destruct (lookup "Country" df); [|done]. cbn [fmap option_fmap option_map].
      by rewrite !SeriesFacts.select_fmap, name_rule_compose. }
    destruct (decide (c = "Performance_Rating")) as [->|?]; decide_labels.
    { by destruct (lookup "Performance_Rating" df). }
    destruct (decide (c = "Years_of_Experience")) as [->|?]; decide_labels.
    { by destruct (lookup "Years_of_Experience" df). }
    destruct (decide (c = "Department")) as [->|?]; decide_labels.
    { destruct (lookup "Department" df); [|done]. cbn [fmap option_fmap option_map].
      by rewrite SeriesFacts.select_fmap. }
    by destruct (lookup c df).
Qed.

(** The identifier column of the output: the identifiers of the rows kept. *)
Lemma clean_data_identifiers (df out : DataFrame) ids :
  clean_data df = Returned out ->
  lookup (id_column df) df = Some ids ->
  lookup (id_column df) out = Some (Series_.select (Rules.keep_first ids) ids).
Proof.
  intros Hr Hids. apply clean_data_spec in Hr as (ids' & Hids' & _ & _ & Hl).
  rewrite Hids in Hids'. apply Some_inj in Hids' as <-.
  rewrite Hl, Hids. unfold Rules.column_rule.
  destruct (id_column_cases df) as [-> | ->]; by decide_labels.
Qed.

Lemma getitem_lookup (df : DataFrame) c s :
  lookup c df = Some s -> getitem df c = Returned s.
Proof. by apply getitem_Returned. Qed.

(** Evaluates the next [getitem] of the goal, whose column is present. *)
Ltac eval_getitem :=
  match goal with
  | |- context [getitem ?d ?c ≫= _] =>
      erewrite (getitem_lookup d c)
        by (rewrite ?lookup_setitem; decide_labels; first [eassumption|reflexivity]);
      cbn [mbind result_bind]
  end.

Lemma resolve_missing_values_returns (df : DataFrame) :
  (forall c, c ∈ ["Name"; "Performance_Rating"; "Country"; "Years_of_Experience"] ->
             c ∈ columns df) ->
  exists out, resolve_missing_values df = Returned out.
Proof.
  intros Hin.
  destruct (columns_lookup "Name" df) as [a Ha]; [apply Hin; by repeat constructor|].
  destruct (columns_lookup "Performance_Rating" df) as [b Hb];
    [apply Hin; by repeat constructor|].
  destruct (columns_lookup "Country" df) as [c Hc]; [apply Hin; by repeat constructor|].
  destruct (columns_lookup "Years_of_Experience" df) as [d Hd];
    [apply Hin; by repeat constructor|].
  unfold resolve_missing_values. do 4 eval_getitem. eauto.
Qed.

Lemma standardize_date_format_returns (df : DataFrame) :
  "Date_of_Joining" ∈ columns df ->
  exists out, standardize_date_format df = Returned out.
Proof.
  intros Hin. destruct (columns_lookup _ _ Hin) as [joined Hj].
  unfold standardize_date_format. do 2 eval_getitem.
  unfold loc_setitem. rewrite lookup_setitem. decide_labels. eval_getitem.
  rewrite SeriesFacts.dt_strftime_filled. cbn [mbind result_bind].
  unfold drop. rewrite bool_decide_eq_true_2; [eauto|].
  eapply lookup_Some_columns. rewrite !lookup_setitem. by decide_labels.
Qed.

Lemma normalize_text_fields_returns (df : DataFrame) :
  "Name" ∈ columns df -> "Department" ∈ columns df ->
  exists out, normalize_text_fields df = Returned out.
Proof.
  intros Hn Hd.
  destruct (columns_lookup _ _ Hn) as [name Hname].
  destruct (columns_lookup _ _ Hd) as [dept Hdept].
  unfold normalize_text_fields. repeat eval_getitem.
  case_bool_decide as Hc; [|eauto].
  apply columns_lookup in Hc as [country Hc]. rewrite (getitem_lookup _ _ _ Hc).
  cbn [mbind result_bind]. eauto.
Qed.

(** [clean_data] returns on every frame that has the columns it reads. *)
Lemma clean_data_returns (df : DataFrame) :
  (forall c, c ∈ Rules.required_columns df -> c ∈ columns df) ->
  exists out, clean_data df = Returned out.
Proof.
  intros Hin. unfold clean_data.
  destruct (resolve_missing_values_returns df) as [df1 H1].
  { intros c Hc. apply Hin. unfold Rules.required_columns.
    repeat (apply elem_of_cons in Hc as [->|Hc]; [by repeat constructor|]).
    by apply elem_of_nil in Hc. }
  rewrite H1. cbn [mbind result_bind].
  apply resolve_missing_values_spec in H1 as (Hc1 & _ & Hl1).
  destruct (standardize_date_format_returns df1) as [df2 H2].
  { rewrite Hc1. apply Hin. by repeat constructor. }
  rewrite H2. cbn [mbind result_bind].
  apply standardize_date_format_spec in H2 as (joined & _ & Hc2 & Hl2).
  rewrite Hc1 in Hc2.
  assert (forall c, c ≠ "Date_Parsed" -> c ∈ columns df -> c ∈ columns df2) as Hkeep.
  { intros c Hne Hc. rewrite Hc2. by apply list_elem_of_filter. }
  destruct (columns_lookup (id_column df2) df2) as [ids Hids].
  { rewrite (id_column_filter df df2) by done. apply Hkeep.
    - by destruct (id_column_cases df) as [-> | ->].
    - apply Hin. by repeat constructor. }
  unfold deduplicate_records, drop_duplicates.
  rewrite (getitem_lookup _ _ _ Hids). cbn [mbind result_bind mret result_ret].
  apply normalize_text_fields_returns; rewrite columns_select_rows;
    (apply Hkeep; [done|apply Hin; by repeat constructor]).
Qed.

End NormalizerSteps.

(** ** Rows: masks, positions and first occurrences *)

Module RowFacts.
Import Series_ Rules.

Lemma positions_from_ge i mask j p :
  positions_from i mask !! j = Some p -> (i <= p)%nat.
Proof.
  revert i j. induction mask as [|b mask IH]; intros i j; simpl; [done|].
  destruct b.
  - destruct j as [|j]; simpl.
    + intros [= <-]. lia.
    + intros Hp. apply IH in Hp. lia.
  - intros Hp. apply IH in Hp. lia.
Qed.

Lemma positions_from_mask i mask j p :
  positions_from i mask !! j = Some p -> mask !! (p - i)%nat = Some true.
Proof.
  revert i j. induction mask as [|b mask IH]; intros i j; simpl; [done|].
  destruct b.
  - destruct j as [|j]; simpl.
    + intros [= <-]. by rewrite Nat.sub_diag.
    + intros Hp. pose proof (positions_from_ge _ _ _ _ Hp).
      apply IH in Hp. by replace (p - i)%nat with (S (p - S i)) by lia.
  - intros Hp. pose proof (positions_from_ge _ _ _ _ Hp).
    apply IH in Hp. by replace (p - i)%nat with (S (p - S i)) by lia.
Qed.

Lemma positions_from_lt i mask j1 j2 p1 p2 :
  positions_from i mask !! j1 = Some p1 ->
  positions_from i mask !! j2 = Some p2 ->
  (j1 < j2)%nat -> (p1 < p2)%nat.
Proof.
  revert i j1 j2. induction mask as [|b mask IH]; intros i j1 j2; simpl; [done|].
  destruct b; [|by apply IH].
  destruct j1 as [|j1], j2 as [|j2]; simpl; try lia.
  - intros [= <-] Hp _. apply positions_from_ge in Hp. lia.
  - intros H1 H2 Hlt. eapply IH; [done..|lia].
Qed.

(** Element [j] of [s[mask]] is the element of [s] at the [j]-th
    position where the mask is true. *)
Lemma select_lookup_from {A} i mask (s : list A) j :
  select mask s !! j
  = positions_from i mask !! j ≫= fun p => s !! (p - i)%nat.
Proof.
  revert i s j. induction mask as [|b mask IH]; intros i s j; simpl;
    [by rewrite !lookup_nil|].
  destruct s as [|x s].
  - rewrite lookup_nil. destruct (_ !! j) as [p|] eqn:E; [|done]. simpl.
    by rewrite lookup_nil.
  - destruct b.
    + destruct j as [|j]; simpl.
      * by rewrite Nat.sub_diag.
      * rewrite (IH (S i)). destruct (_ !! j) as [p|] eqn:E; [|done]. simpl.
        apply positions_from_ge in E.
        by replace (p - i)%nat with (S (p - S i)) by lia.
    + rewrite (IH (S i)). destruct (_ !! j) as [p|] eqn:E; [|done]. simpl.
      apply positions_from_ge in E.
      by replace (p - i)%nat with (S (p - S i)) by lia.
Qed.

Lemma select_lookup {A} mask (s : list A) j :
  select mask s !! j = positions mask !! j ≫= fun p => s !! p.
Proof.
  unfold positions. rewrite (select_lookup_from 0).
  destruct (_ !! j) as [p|]; [|done]. simpl. by rewrite Nat.sub_0_r.
Qed.

Lemma positions_mask mask j p :
  positions mask !! j = Some p -> mask !! p = Some true.
Proof.
  intros Hp. apply positions_from_mask in Hp. by rewrite Nat.sub_0_r in Hp.
Qed.

Lemma positions_lt mask j1 j2 p1 p2 :
  positions mask !! j1 = Some p1 -> positions mask !! j2 = Some p2 ->
  (j1 < j2)%nat -> (p1 < p2)%nat.
Proof. apply positions_from_lt. Qed.

(** Every true position of the mask is listed. *)
Lemma positions_from_complete i mask p :
  mask !! p = Some true -> exists j, positions_from i mask !! j = Some (i + p)%nat.
Proof.
  revert i p. induction mask as [|b mask IH]; intros i p; simpl; [done|].
  destruct p as [|p]; simpl.
  - intros [= ->]. exists 0%nat. simpl. f_equal. lia.
  - intros Hp. destruct (IH (S i) p Hp) as [j Hj].
    replace (S i + p)%nat with (i + S p)%nat in Hj by lia.
    destruct b; [by exists (S j)|by exists j].
Qed.

Lemma positions_complete mask p :
  mask !! p = Some true -> exists j, positions mask !! j = Some p.
Proof. intros Hp. by destruct (positions_from_complete 0 mask p Hp) as [j Hj]; eauto. Qed.

Lemma length_duplicated_after seen (s : Series) :
  length (duplicated_after seen s) = length s.
Proof. revert seen. induction s as [|x s IH]; intros seen; simpl; auto. Qed.

(** [duplicated] is true at an element exactly when its key occurred
    before it. *)
Lemma duplicated_after_lookup seen (s : Series) i x b :
  s !! i = Some x -> duplicated_after seen s !! i = Some b ->
  b = true <->
  exists y, same_key x y = true
            /\ (y ∈ seen \/ exists i', (i' < i)%nat /\ s !! i' = Some y).
Proof.
  revert seen i. induction s as [|z s IH]; intros seen i; [done|].
  destruct i as [|i]; simpl.
  - intros [= ->] [= <-]. rewrite existsb_exists. split.
    + intros (y & Hy & Hk). exists y. split; [done|left]. by apply list_elem_of_In.
    + intros (y & Hk & [Hy|(i' & Hlt & _)]); [|lia].
      exists y. split; [|done]. by apply list_elem_of_In.
  - intros Hx Hb. rewrite (IH (z :: seen) i Hx Hb). split.
    + intros (y & Hk & [Hy|(i' & Hlt & Hy)]).
      * apply elem_of_cons in Hy as [->|Hy].
        -- exists z. split; [done|right]. exists 0%nat. split; [lia|done].
        -- exists y. auto.
      * exists y. split; [done|right]. exists (S i'). split; [lia|done].
    + intros (y & Hk & [Hy|(i' & Hlt & Hy)]).
      * exists y. split; [done|left]. by right.
      * destruct i' as [|i']; simpl in Hy.
        -- injection Hy as ->. exists y. split; [done|left]. by left.
        -- exists y. split; [done|right]. exists i'. split; [lia|done].
Qed.

(** A row is kept exactly when no earlier row has its identifier. *)
Lemma keep_first_lookup (ids : Series) i :
  keep_first ids !! i = Some true <->
  exists x, ids !! i = Some x
            /\ forall i' y, (i' < i)%nat -> ids !! i' = Some y -> same_key x y = false.
Proof.
  unfold keep_first, duplicated. rewrite list_lookup_fmap.
  destruct (ids !! i) as [x|] eqn:Hx.
  - destruct (duplicated_after [] ids !! i) as [b|] eqn:Hb.
    + pose proof (duplicated_after_lookup [] ids i x b Hx Hb) as Hd.
      simpl. split.
      * intros [= Hn]. exists x. split; [done|]. intros i' y Hlt Hy.
        destruct (same_key x y) eqn:Hk; [|done].
        assert (b = true) as ->; [|done].
        apply Hd. exists y. eauto.
      * intros (x' & [= <-] & Hfirst). f_equal.
        destruct b; [|done]. destruct Hd as [Hd _].
        destruct (Hd eq_refl) as (y & Hk & [Hy|(i' & Hlt & Hy)]).
        -- by apply elem_of_nil in Hy.
        -- by rewrite (Hfirst i' y Hlt Hy) in Hk.
    + apply lookup_ge_None in Hb. rewrite length_duplicated_after in Hb.
      apply lookup_lt_Some in Hx. lia.
  - split; [|by intros (x & ? & _)].
    destruct (duplicated_after [] ids !! i) eqn:Hb; [|done].
    apply lookup_lt_Some in Hb. rewrite length_duplicated_after in Hb.
    apply lookup_ge_None in Hx. lia.
Qed.

End RowFacts.

Module KeyFacts.
Import Series_ Rules RowFacts SeriesFacts.

Lemma same_key_refl a : same_key a a = true.
Proof. unfold same_key. by rewrite bool_decide_eq_true_2. Qed.

Lemma same_key_trans a b c :
  same_key a b = true -> same_key b c = true -> same_key a c = true.
Proof.
  unfold same_key. intros Hab Hbc.
  apply orb_true_iff in Hab as [Hab|Hab]; [apply bool_decide_eq_true in Hab as ->; done|].
  apply orb_true_iff in Hbc as [Hbc|Hbc]; [apply bool_decide_eq_true in Hbc as <-|].
  - rewrite Hab. apply orb_true_r.
  - apply andb_true_iff in Hab as [-> _]. apply andb_true_iff in Hbc as [_ ->].
    apply orb_true_r.
Qed.

(** The identifier of every row is the identifier of a kept row. *)
Lemma keep_first_covers (ids : Series) i x :
  ids !! i = Some x ->
  exists i0 x0, ids !! i0 = Some x0 /\ same_key x x0 = true
                /\ keep_first ids !! i0 = Some true.
Proof.
  revert x. induction (lt_wf i) as [i _ IH]. intros x Hx.
  destruct (duplicated ids !! i) as [b|] eqn:Hb.
  - destruct b.
    + destruct (duplicated_after_lookup [] ids i x true Hx Hb) as [Hd _].
      destruct (Hd eq_refl) as (y & Hk & [Hy|(i' & Hlt & Hy)]);
        [by apply elem_of_nil in Hy|].
      destruct (IH i' Hlt y Hy) as (i0 & x0 & H0 & Hk0 & Hkeep).
      exists i0, x0. split; [done|split; [|done]]. by eapply same_key_trans.
    + exists i, x. split; [done|split; [apply same_key_refl|]].
      unfold keep_first. by rewrite list_lookup_fmap, Hb.
  - apply lookup_ge_None in Hb. unfold duplicated in Hb.
    rewrite length_duplicated_after in Hb. apply lookup_lt_Some in Hx. lia.
Qed.

(** The identifier of every row is among the kept identifiers. *)
Lemma select_keep_first_covers (ids : Series) i x :
  ids !! i = Some x ->
  exists j y, select (keep_first ids) ids !! j = Some y /\ same_key x y = true.
Proof.
  intros Hx. destruct (keep_first_covers ids i x Hx) as (i0 & x0 & H0 & Hk & Hkeep).
  destruct (positions_complete _ _ Hkeep) as [j Hj].
  exists j, x0. split; [|done]. by rewrite select_lookup, Hj.
Qed.

(** The kept identifiers are pairwise different keys. *)
Lemma select_keep_first_distinct (ids : Series) j1 j2 a b :
  j1 ≠ j2 ->
  select (keep_first ids) ids !! j1 = Some a ->
  select (keep_first ids) ids !! j2 = Some b ->
  same_key a b = false.
Proof.
  assert (forall j1 j2 a b, (j1 < j2)%nat ->
            select (keep_first ids) ids !! j1 = Some a ->
            select (keep_first ids) ids !! j2 = Some b ->
            same_key b a = false) as Hlt.
  { clear. intros j1 j2 a b Hlt. rewrite !select_lookup.
    destruct (positions _ !! j1) as [p1|] eqn:E1; [|done].
    destruct (positions _ !! j2) as [p2|] eqn:E2; [|done]. simpl.
    intros Ha Hb. pose proof (positions_lt _ _ _ _ _ E1 E2 Hlt).
    apply positions_mask, keep_first_lookup in E2 as (x & Hx & Hfirst).
    rewrite Hb in Hx. injection Hx as <-. by eapply Hfirst. }
  intros Hne Ha Hb. destruct (decide (j1 < j2)%nat).
  - rewrite same_key_sym. by eapply Hlt.
  - eapply (Hlt j2 j1); [lia|done..].
Qed.

End KeyFacts.

(* ===================================================================== *)
(** * The properties of the specification *)
(* ===================================================================== *)

Section Deduplication.
Context `{DateParser}.
Import Series_ Rules.

(** C2. In the output of [clean_data] no two rows have the same
    identifier; a row of the input is retained exactly when no earlier
    row has its identifier, whatever its name; every identifier of the
    input is the identifier of a retained row; and every column of the
    output is the rule of its label applied to the input column, at the
    retained rows in their original order. *)
Theorem clean_data_keeps_first_occurrence (df out : DataFrame) :
  clean_data df = Returned out ->
  exists ids,
    DF.lookup (id_column df) df = Some ids
    /\ DF.lookup (id_column df) out = Some (select (keep_first ids) ids)
    /\ (forall j1 j2 a b,
           j1 ≠ j2 ->
           select (keep_first ids) ids !! j1 = Some a ->
           select (keep_first ids) ids !! j2 = Some b ->
           same_key a b = false /\ a ≠ b)
    /\ (forall i,
           keep_first ids !! i = Some true <->
           exists x, ids !! i = Some x
                     /\ forall i' y, (i' < i)%nat -> ids !! i' = Some y ->
                                     same_key x y = false)
    /\ (forall i x,
           ids !! i = Some x ->
           exists j y, select (keep_first ids) ids !! j = Some y
                       /\ same_key x y = true)
    /\ (forall c,
           c ≠ "Date_Parsed" ->
           DF.lookup c out
           = (fun s => select (keep_first ids) (column_rule c s)) <$> DF.lookup c df).
Proof.
  intros Hr. pose proof Hr as Hr'.
  apply clean_data_spec in Hr' as (ids & Hids & _ & _ & Hl).
  exists ids. split; [done|]. split; [|split; [|split; [|split]]].
  - by apply clean_data_identifiers.
  - intros j1 j2 a b Hne Ha Hb.
    pose proof (KeyFacts.select_keep_first_distinct ids j1 j2 a b Hne Ha Hb) as Hk.
    split; [done|]. intros ->. by rewrite KeyFacts.same_key_refl in Hk.
  - apply RowFacts.keep_first_lookup.
  - apply KeyFacts.select_keep_first_covers.
  - intros c Hc. rewrite Hl. by rewrite bool_decide_eq_false_2.
Qed.

End Deduplication.

Lemma clean_data_keeps_first_occurrence_witness :
  @clean_data iso_parser Examples.staged = Returned Examples.cleaned
  /\ exists ids,
      DF.lookup "Employee_ID" Examples.staged = Some ids
      /\ DF.lookup "Employee_ID" Examples.cleaned
         = Some (Series_.select (Rules.keep_first ids) ids)
      /\ forall j1 j2 a b,
          j1 ≠ j2 ->
          Series_.select (Rules.keep_first ids) ids !! j1 = Some a ->
          Series_.select (Rules.keep_first ids) ids !! j2 = Some b ->
          a ≠ b.
Proof.
  assert (@clean_data iso_parser Examples.staged = Returned Examples.cleaned) as Hr
    by (vm_compute; reflexivity).
  split; [exact Hr|].
  destruct (@clean_data_keeps_first_occurrence iso_parser _ _ Hr)
    as (ids & Hids & Hout & Hdistinct & _).
  exists ids. split; [exact Hids|split; [exact Hout|]].
  intros j1 j2 a b Hne Ha Hb. by destruct (Hdistinct j1 j2 a b Hne Ha Hb).
Defined.

Section Cells.
Context `{DateParser}.
Import Series_ Rules.

(** A cell of the output is the cell of the rule's column at the position
    of the retained row. *)
Lemma clean_data_cell (df out : DataFrame) ids c s :
  clean_data df = Returned out ->
  DF.lookup (id_column df) df = Some ids ->
  c ≠ "Date_Parsed" ->
  DF.lookup c df = Some s ->
  exists s',
    DF.lookup c out = Some s'
    /\ forall j, s' !! j = positions (keep_first ids) !! j ≫= fun i => column_rule c s !! i.
Proof.
  intros Hr Hids Hc Hs. apply clean_data_spec in Hr as (ids' & Hids' & _ & _ & Hl).
  rewrite Hids in Hids'. injection Hids' as <-.
  exists (select (keep_first ids) (column_rule c s)). split.
  - rewrite Hl, Hs. by rewrite bool_decide_eq_false_2.
  - intros j. apply RowFacts.select_lookup.
Qed.

(** The same, read from the output: every cell of an output column comes
    from a retained row of the input column. *)
Lemma clean_data_cell_inv (df out : DataFrame) c s' :
  clean_data df = Returned out ->
  DF.lookup c out = Some s' ->
  exists ids s,
    DF.lookup (id_column df) df = Some ids
    /\ DF.lookup c df = Some s
    /\ forall j, s' !! j = positions (keep_first ids) !! j ≫= fun i => column_rule c s !! i.
Proof.
  intros Hr Hs'. pose proof Hr as Hr'.
  apply clean_data_spec in Hr as (ids & Hids & _ & _ & Hl).
  rewrite Hl in Hs'. case_bool_decide as Hc; [done|].
  destruct (DF.lookup c df) as [s|] eqn:Hs; [|done].
  destruct (clean_data_cell df out ids c s Hr' Hids Hc Hs) as (s2 & Hs2 & Hj).
  exists ids, s. split; [done|split; [done|]].
  rewrite Hl, Hs in Hs2. rewrite bool_decide_eq_false_2 in Hs2 by done.
  simpl in Hs', Hs2. rewrite Hs' in Hs2. by injection Hs2 as ->.
Qed.

Lemma lookup_bind_Some {A B} (o : option A) (f : A -> option B) b :
  o ≫= f = Some b -> exists a, o = Some a /\ f a = Some b.
Proof. destruct o; [eauto|done]. Qed.

End Cells.

Section MissingIdentifiers.
Context `{DateParser}.
Import Series_ Rules.


End MissingIdentifiers.


Section Columns.
Context `{DateParser}.
Import Series_ Rules.

(** C3. Every Date_of_Joining of the output of [clean_data] is a string
    of the pattern YYYY-MM-DD: the ISO day of the date parsed from the
    value of the retained row, or "1900-01-01" when the parse gives none,
    as it does for a missing value. *)
Theorem clean_data_dates (df out : DataFrame) dates :
  clean_data df = Returned out ->
  DF.lookup "Date_of_Joining" out = Some dates ->
  exists ids joined,
    DF.lookup (id_column df) df = Some ids
    /\ DF.lookup "Date_of_Joining" df = Some joined
    /\ forall j d,
        dates !! j = Some d ->
        exists i raw text,
          positions (keep_first ids) !! j = Some i
          /\ joined !! i = Some raw
          /\ d = Str text
          /\ isnull d = false
          /\ Calendar.matches_ymd text = true
          /\ ((exists t, to_datetime joined !! i = Some (Some t)
                         /\ Calendar.valid t = true
                         /\ text = Calendar.strftime t)
              \/ (to_datetime joined !! i = Some None /\ text = "1900-01-01"))
          /\ (isnull raw = true -> text = "1900-01-01").
Proof.
  intros Hr Hd.
  destruct (clean_data_cell_inv df out _ dates Hr Hd) as (ids & joined & Hids & Hj & Hcell).
  exists ids, joined. split; [done|split; [done|]].
  intros j d Hjd. rewrite Hcell in Hjd.
  apply lookup_bind_Some in Hjd as (i & Hi & Hd').
  unfold column_rule in Hd'. decide_labels_in Hd'.
  unfold date_rule in Hd'. rewrite list_lookup_fmap in Hd'.
  destruct (to_datetime joined !! i) as [o|] eqn:Ho; [|done].
  injection Hd' as <-.
  assert (exists raw, joined !! i = Some raw) as [raw Hraw].
  { apply lookup_lt_is_Some. rewrite <- to_datetime_length.
    by eapply lookup_lt_Some. }
  exists i, raw, (Calendar.strftime (default Calendar.epoch_1900 o)).
  split; [done|split; [done|split; [done|split; [done|split; [|split]]]]].
  - apply CalendarFacts.matches_ymd_strftime.
  - destruct o as [t|].
    + left. exists t. split; [done|split; [|done]]. by eapply to_datetime_valid.
    + right. done.
  - intros Hnull. rewrite (to_datetime_null joined i raw Hraw Hnull) in Ho.
    by injection Ho as <-.
Qed.

(** C4. The Department of an output row of [clean_data] is decided by the
    raw value of the retained row with all whitespace removed and
    upper-cased: the label of the map when that text is a key, that text
    unchanged when it is not. *)
Theorem clean_data_department (df out : DataFrame) depts :
  clean_data df = Returned out ->
  DF.lookup "Department" out = Some depts ->
  exists ids raw,
    DF.lookup (id_column df) df = Some ids
    /\ DF.lookup "Department" df = Some raw
    /\ forall j d,
        depts !! j = Some d ->
        exists i x,
          positions (keep_first ids) !! j = Some i
          /\ raw !! i = Some x
          /\ (forall label,
                 dept_mapping !! PyStr.upper (PyStr.remove_whitespace (py_str x))
                 = Some label -> d = Str label)
          /\ (dept_mapping !! PyStr.upper (PyStr.remove_whitespace (py_str x)) = None ->
              d = Str (PyStr.upper (PyStr.remove_whitespace (py_str x)))).
Proof.
  intros Hr Hd.
  destruct (clean_data_cell_inv df out _ depts Hr Hd) as (ids & raw & Hids & Hraw & Hcell).
  exists ids, raw. split; [done|split; [done|]].
  intros j d Hjd. rewrite Hcell in Hjd.
  apply lookup_bind_Some in Hjd as (i & Hi & Hd').
  unfold column_rule in Hd'. decide_labels_in Hd'.
  rewrite list_lookup_fmap in Hd'.
  destruct (raw !! i) as [x|] eqn:Hx; [|done]. injection Hd' as <-.
  exists i, x. split; [done|split; [done|]].
  unfold department_rule, canonical, department_key.
  split; [intros label Hl|intros Hl]; by rewrite Hl.
Qed.

End Columns.

Lemma clean_data_dates_witness :
  @clean_data iso_parser Examples.sparse = Returned Examples.sparse_cleaned
  /\ exists ids joined,
      DF.lookup "Employee_ID" Examples.sparse = Some ids
      /\ DF.lookup "Date_of_Joining" Examples.sparse = Some joined
      /\ forall j d,
          [Str "1900-01-01"; Str "2020-02-29"] !! j = Some d ->
          exists i raw text,
            Rules.positions (Rules.keep_first ids) !! j = Some i
            /\ joined !! i = Some raw
            /\ d = Str text
            /\ Calendar.matches_ymd text = true.
Proof.
  assert (@clean_data iso_parser Examples.sparse = Returned Examples.sparse_cleaned)
    as Hr by (vm_compute; reflexivity).
  split; [exact Hr|].
  destruct (@clean_data_dates iso_parser _ _ _ Hr eq_refl)
    as (ids & joined & Hids & Hj & Hrows).
  exists ids, joined. split; [exact Hids|split; [exact Hj|]].
  intros j d Hd. destruct (Hrows j d Hd) as (i & raw & text & Hi & Hraw & Hs & _ & Hm & _).
  exists i, raw, text. auto.
Defined.

Lemma clean_data_department_witness :
  @clean_data iso_parser Examples.staged = Returned Examples.cleaned
  /\ exists ids raw,
      DF.lookup "Employee_ID" Examples.staged = Some ids
      /\ DF.lookup "Department" Examples.staged = Some raw
      /\ forall j d,
          [Str "MARKETING"; Str "OPERATIONS"] !! j = Some d ->
          exists i x,
            Rules.positions (Rules.keep_first ids) !! j = Some i
            /\ raw !! i = Some x
            /\ (forall label,
                   dept_mapping !! PyStr.upper (PyStr.remove_whitespace (py_str x))
                   = Some label -> d = Str label).
Proof.
  assert (@clean_data iso_parser Examples.staged = Returned Examples.cleaned)
    as Hr by (vm_compute; reflexivity).
  split; [exact Hr|].
  destruct (@clean_data_department iso_parser _ _ _ Hr eq_refl)
    as (ids & raw & Hids & Hraw & Hrows).
  exists ids, raw. split; [exact Hids|split; [exact Hraw|]].
  intros j d Hd. destruct (Hrows j d Hd) as (i & x & Hi & Hx & Hkey & _).
  exists i, x. auto.
Defined.

Section Defaults.
Context `{DateParser}.
Import Series_ Rules.

Lemma name_rule_null x : isnull x = true -> name_rule x = Str "Unknown".
Proof. intros Hx. unfold name_rule, fill_unknown. rewrite Hx. reflexivity. Qed.

(** C5. In the output row of [clean_data] that comes from a retained
    input row, a missing Name, Performance_Rating or Country has become
    "Unknown" and a missing Years_of_Experience -1; so a row where the
    four are missing has the four defaults. *)
Theorem clean_data_defaults (df out : DataFrame) :
  clean_data df = Returned out ->
  exists ids names ratings countries years names' ratings' countries' years',
    DF.lookup (id_column df) df = Some ids
    /\ DF.lookup "Name" df = Some names
    /\ DF.lookup "Performance_Rating" df = Some ratings
    /\ DF.lookup "Country" df = Some countries
    /\ DF.lookup "Years_of_Experience" df = Some years
    /\ DF.lookup "Name" out = Some names'
    /\ DF.lookup "Performance_Rating" out = Some ratings'
    /\ DF.lookup "Country" out = Some countries'
    /\ DF.lookup "Years_of_Experience" out = Some years'
    /\ forall j i,
        positions (keep_first ids) !! j = Some i ->
        (forall x, names !! i = Some x -> isnull x = true ->
                   names' !! j = Some (Str "Unknown"))
        /\ (forall x, ratings !! i = Some x -> isnull x = true ->
                      ratings' !! j = Some (Str "Unknown"))
        /\ (forall x, countries !! i = Some x -> isnull x = true ->
                      countries' !! j = Some (Str "Unknown"))
        /\ (forall x, years !! i = Some x -> isnull x = true ->
                      years' !! j = Some (Int (-1))).
Proof.
  intros Hr. pose proof Hr as Hr'.
  apply clean_data_spec in Hr' as (ids & Hids & Hreq & _ & _).
  assert (forall c, c ∈ required_columns df -> is_Some (DF.lookup c df)) as Hcol.
  { intros c Hc. by apply DFFacts.columns_lookup, Hreq. }
  destruct (Hcol "Name") as [names Hn]; [by repeat constructor|].
  destruct (Hcol "Performance_Rating") as [ratings Hp]; [by repeat constructor|].
  destruct (Hcol "Country") as [countries Hc]; [by repeat constructor|].
  destruct (Hcol "Years_of_Experience") as [years Hy]; [by repeat constructor|].
  destruct (clean_data_cell df out ids "Name" _ Hr Hids ltac:(done) Hn) as (names' & Hn' & Hnj).
  destruct (clean_data_cell df out ids "Performance_Rating" _ Hr Hids ltac:(done) Hp) as (ratings' & Hp' & Hpj).
  destruct (clean_data_cell df out ids "Country" _ Hr Hids ltac:(done) Hc) as (countries' & Hc' & Hcj).
  destruct (clean_data_cell df out ids "Years_of_Experience" _ Hr Hids ltac:(done) Hy) as (years' & Hy' & Hyj).
  exists ids, names, ratings, countries, years, names', ratings', countries', years'.
  do 9 (split; [done|]).
  intros j i Hi. unfold column_rule in *.
  split; [|split; [|split]]; intros x Hx Hnull.
  - rewrite Hnj, Hi. simpl. decide_labels.
    by rewrite list_lookup_fmap, Hx, <- (name_rule_null x Hnull).
  - rewrite Hpj, Hi. simpl. decide_labels.
    rewrite list_lookup_fmap, Hx. simpl. unfold fill_unknown. by rewrite Hnull.
  - rewrite Hcj, Hi. simpl. decide_labels.
    by rewrite list_lookup_fmap, Hx, <- (name_rule_null x Hnull).
  - rewrite Hyj, Hi. simpl. decide_labels.
    rewrite list_lookup_fmap, Hx. simpl. unfold years_rule. by rewrite Hnull.
Qed.

(** C8 does not hold of the code: the Department of a retained row whose
    raw Department is missing is not missing in the output. [astype(str)]
    has turned the missing value into text, which is upper-cased and, not
    being a key of the map, passes through: "NONE" for None, "NAN" for
    NaN, "NAT" for NaT. *)
Theorem clean_data_missing_department (df out : DataFrame) depts :
  clean_data df = Returned out ->
  DF.lookup "Department" out = Some depts ->
  exists ids raw,
    DF.lookup (id_column df) df = Some ids
    /\ DF.lookup "Department" df = Some raw
    /\ forall j i x,
        positions (keep_first ids) !! j = Some i ->
        raw !! i = Some x -> isnull x = true ->
        exists text,
          depts !! j = Some (Str text)
          /\ isnull (Str text) = false
          /\ (x = PyNone -> text = "NONE")
          /\ (x = NaN -> text = "NAN")
          /\ (x = NaT -> text = "NAT").
Proof.
  intros Hr Hd.
  destruct (clean_data_cell_inv df out _ depts Hr Hd) as (ids & raw & Hids & Hraw & Hcell).
  exists ids, raw. split; [done|split; [done|]].
  intros j i x Hi Hx Hnull. rewrite Hcell, Hi. simpl.
  unfold column_rule. decide_labels. rewrite list_lookup_fmap, Hx. simpl.
  destruct x; try discriminate; eexists; (split; [reflexivity|]);
    (split; [done|]); repeat split; intros; (done || by vm_compute).
Qed.

End Defaults.

(** ** The rules are idempotent *)

Module RuleFacts.
Import Series_ Rules.








(** A series of pairwise different keys has no duplicate to drop. *)
Lemma keep_first_distinct (l : Series) :
  (forall j1 j2 a b, j1 ≠ j2 -> l !! j1 = Some a -> l !! j2 = Some b ->
                     same_key a b = false) ->
  keep_first l = replicate (length l) true.
Proof.
  intros Hd. apply list_eq. intros i.
  destruct (decide (i < length l)%nat) as [Hi|Hi].
  - rewrite (lookup_replicate_2 _ _ _ Hi).
    apply RowFacts.keep_first_lookup.
    destruct (lookup_lt_is_Some_2 l i Hi) as [x Hx]. exists x. split; [done|].
    intros i' y Hlt Hy. eapply (Hd i i'); [lia|done..].
  - rewrite (proj1 (lookup_replicate_None _ _ _)) by lia.
    apply lookup_ge_None. unfold keep_first, duplicated.
    rewrite length_fmap, RowFacts.length_duplicated_after. lia.
Qed.

Section WithParser.
Context `{DateParser}.

Lemma length_column_rule c (s : Series) : length (column_rule c s) = length s.
Proof.
  unfold column_rule, date_rule.
  repeat case_bool_decide; rewrite ?length_fmap, ?to_datetime_length; done.
Qed.




End WithParser.

End RuleFacts.

Section Idempotence.
Context `{DateParser}.
Import Series_ Rules.

Lemma wf_lookup_length (df : DataFrame) c s :
  DF.wf df -> DF.lookup c df = Some s -> length s = DF.nrows df.
Proof.
  intros [_ Hlen]. revert Hlen. generalize (DF.nrows df). intros n.
  induction df as [|[c0 s0] df IH]; simpl; [done|].
  intros Hall. apply Forall_cons in Hall as [H0 Hall].
  case_bool_decide; [by intros [= <-]|auto].
Qed.

Lemma NoDup_filter_ne c (l : list string) :
  NoDup l -> NoDup (filter (fun n => n ≠ c) l).
Proof. apply NoDup_filter. Qed.



End Idempotence.


Section Schema.
Context `{DateParser}.
Import Rules.

Lemma columns_where_notnull (df : DataFrame) :
  DF.columns (Loader.where_notnull df) = DF.columns df.
Proof.
  unfold DF.columns, Loader.where_notnull. rewrite <- list_fmap_compose.
  by apply list_fmap_ext.
Qed.

Lemma project_columns (df sel : DataFrame) cs :
  DF.project df cs = Returned sel -> DF.columns sel = cs.
Proof.
  revert sel. induction cs as [|c cs IH]; intros sel; simpl.
  - by intros [= <-].
  - intros Hp. apply bind_Returned in Hp as (s & _ & Hp).
    apply bind_Returned in Hp as (rest & Hrest & Hp).
    apply Returned_inj in Hp as <-. simpl. f_equal. by apply IH.
Qed.

Lemma project_returns (df : DataFrame) cs :
  (forall c, c ∈ cs -> c ∈ DF.columns df) ->
  exists sel, DF.project df cs = Returned sel.
Proof.
  induction cs as [|c cs IH]; intros Hin; simpl; [eauto|].
  destruct (DFFacts.columns_lookup c df) as [s Hs]; [apply Hin; by left|].
  rewrite (getitem_lookup _ _ _ Hs). cbn [mbind result_bind].
  destruct IH as [rest ->]; [intros c' Hc'; apply Hin; by right|].
  cbn [mbind result_bind]. eauto.
Qed.


End Schema.



(** ** The canonical loader *)

Section LoaderFacts.
Import Loader.

Lemma stdout_validate_and_export w p :
  p ∈ stdout w -> p ∈ stdout (validate_and_export w).
Proof.
  intros Hp. unfold validate_and_export, print. simpl.
  rewrite !elem_of_app. auto 10.
Qed.

(** C1, as the code has it. When the bulk insertion raises an exception,
    a duplicate Employee_ID among them, the loader catches it: the
    exception is printed on the console, nothing of the batch is
    committed, the validation and the export run on the table as it was,
    and the call returns normally; no error reaches the caller. *)
Theorem load_reports_failed_insertion (cleaned_df : DataFrame) (w : world) rows e :
  data_to_insert cleaned_df = Returned rows ->
  Store.insert_all (Store.commit (db w)) rows = Raised e ->
  exists w',
    load_clean_data_to_final_table cleaned_df w = (w', Returned tt)
    /\ Failure "An error occurred when inserting clean data" e ∈ stdout w'
    /\ db w' = Store.commit (db w)
    /\ employee_db_csv w' = Some (Store.employee_data (Store.commit (db w))).
Proof.
  intros Hrows Hfail. unfold load_clean_data_to_final_table.
  rewrite Hrows. eexists. split; [reflexivity|].
  unfold insert_clean_data, Store.executemany, Store.create_table_if_not_exists.
  cbn [db print with_db]. rewrite Hfail. split; [|split].
  - apply stdout_validate_and_export. cbn [stdout print with_db].
    rewrite !elem_of_app. right. by left.
  - reflexivity.
  - reflexivity.
Qed.

End LoaderFacts.

Lemma load_reports_failed_insertion_witness :
  Loader.data_to_insert Examples.twice
  = Returned [ [Int 1; Str "Ann"; Int 30; Str "HR"; Str "2020-02-29"; Int 5;
                Str "Usa"; Int 50000; Str "Good"];
               [Int 1; Str "Bob"; Int 31; Str "IT"; Str "2021-03-01"; Int 6;
                Str "Usa"; Int 60000; Str "Good"] ]
  /\ exists w',
      Loader.load_clean_data_to_final_table Examples.twice Examples.fresh
      = (w', Returned tt)
      /\ Failure "An error occurred when inserting clean data"
           (IntegrityError "Duplicate entry for key 'employee_data.PRIMARY'")
         ∈ Loader.stdout w'
      /\ Loader.db w' = Store.mk [] [].
Proof.
  split; [vm_compute; reflexivity|].
  destruct (load_reports_failed_insertion Examples.twice Examples.fresh _
              (IntegrityError "Duplicate entry for key 'employee_data.PRIMARY'")
              eq_refl eq_refl) as (w' & Hload & Hout & Hdb & _).
  exists w'. auto.
Defined.

(** C1 as the specification states it fails: on a batch that carries the
    identifier 1 twice the insertion raises the duplicate-key error of the
    store, and the loader returns normally instead of raising. *)
Lemma load_swallows_duplicate_key_counterexample :
  (exists rows,
      Loader.data_to_insert Examples.twice = Returned rows
      /\ Store.executemany (Store.mk [] []) rows
         = (Store.mk [] [],
            Raised (IntegrityError "Duplicate entry for key 'employee_data.PRIMARY'")))
  /\ snd (Loader.load_clean_data_to_final_table Examples.twice Examples.fresh)
     = Returned tt
  /\ forall e,
      snd (Loader.load_clean_data_to_final_table Examples.twice Examples.fresh)
      ≠ Raised e.
Proof.
  split; [eexists; split; vm_compute; reflexivity|].
  split; [vm_compute; reflexivity|]. intros e. vm_compute. discriminate.
Qed.

(** ** The profiler *)

Section ProfilerFacts.
Context `{DateParser}.
Import Profiler.

Lemma remove_setitem_notin (df : DataFrame) c s :
  c ∉ DF.columns df -> DF.remove c (DF.setitem df c s) = df.
Proof.
  induction df as [|[n s0] df IH]; simpl.
  - intros _. by rewrite bool_decide_eq_true_2.
  - rewrite not_elem_of_cons. intros [Hn Hc].
    rewrite (bool_decide_eq_false_2 (n = c)) by done. simpl.
    rewrite (bool_decide_eq_false_2 (n = c)) by done. by rewrite IH.
Qed.

Lemma hoare_bind {A B} X (m : M A) (k : A -> M B) Q R E :
  hoare X m Q E ->
  (forall a X', Q a X' -> hoare X' (k a) R E) ->
  hoare X (m ≫= k) R E.
Proof.
  intros Hm Hk console. specialize (Hm console).
  unfold mbind, M_bind. destruct (m _) as [[X' console'] [a|e]]; [|done].
  apply (Hk a X' Hm).
Qed.

Lemma hoare_print X p E : hoare X (print p) (fun _ X' => X' = X) E.
Proof. by intros console. Qed.

Lemma hoare_this X E : hoare X this (fun a X' => X' = X /\ a = X) E.
Proof. by intros console. Qed.

Lemma hoare_eval {A} X (e : DataFrame -> result A) E :
  (forall exc, e X = Raised exc -> E X) ->
  hoare X (eval e) (fun a X' => X' = X /\ e X = Returned a) E.
Proof.
  intros He console. unfold eval. simpl. destruct (e X) as [a|exc]; [done|eauto].
Qed.

Lemma hoare_update X (g : DataFrame -> result DataFrame) E :
  (forall exc, g X = Raised exc -> E X) ->
  hoare X (update g) (fun _ X' => g X = Returned X') E.
Proof.
  intros Hg console. unfold update. simpl. destruct (g X) as [X'|exc]; [done|eauto].
Qed.

Lemma hoare_weaken {A} X (m : M A) (Q Q' : A -> DataFrame -> Prop) E :
  hoare X m Q E -> (forall a X', Q a X' -> Q' a X') -> hoare X m Q' E.
Proof.
  intros Hm HQ console. specialize (Hm console).
  destruct (m _) as [st' [a|e]]; [auto|done].
Qed.

(** One statement that prints. *)
Ltac hoare_print :=
  eapply hoare_bind; [apply hoare_print|intros _ ? ->].

(** The report of step 4 or 5: both branches only print or project. *)
Lemma hoare_if_print {A} X (b : bool) (m1 m2 : M A) E :
  hoare X m1 (fun _ X' => X' = X) E -> hoare X m2 (fun _ X' => X' = X) E ->
  hoare X (if b then m1 else m2) (fun _ X' => X' = X) E.
Proof. by destruct b. Qed.

Lemma date_column_ne (df : DataFrame) : date_column df ≠ "Parsed_Date".
Proof. unfold date_column. by case_bool_decide. Qed.

Lemma id_column_ne (df : DataFrame) : id_column df ≠ "Parsed_Date".
Proof. unfold id_column. by case_bool_decide. Qed.

(** [profile_data] as a specification: started on a table without a
    Parsed_Date column it ends on that table, returning it or raising. *)
Lemma profile_data_hoare (df : DataFrame) :
  "Parsed_Date" ∉ DF.columns df ->
  hoare df profile_data (fun out X' => X' = df /\ out = df) (fun X' => X' = df).
Proof.
  intros Hfresh. unfold profile_data.
  hoare_print.
  eapply hoare_bind; [apply hoare_this|intros a ? [-> ->]].
  do 6 hoare_print.
  eapply hoare_bind; [apply hoare_eval; done|intros [] ? [-> _]].
  hoare_print. cbv zeta.
  eapply hoare_bind; [apply hoare_eval; done|intros ids ? [-> Hids]].
  eapply hoare_bind; [apply hoare_eval; done|intros names ? [-> Hnames]].
  apply DFFacts.getitem_Returned in Hids, Hnames.
  eapply hoare_bind.
  { apply hoare_if_print; [|apply hoare_print].
    eapply hoare_bind; [apply hoare_print|intros _ ? ->; apply hoare_print]. }
  intros _ ? ->.
  eapply hoare_bind; [apply hoare_eval; done|intros dates ? [-> Hdates]].
  apply DFFacts.getitem_Returned in Hdates.
  eapply hoare_bind; [apply hoare_update; done|intros [] X1 HX1]; simpl in HX1.
  apply Returned_inj in HX1. subst X1.
  set (X1 := DF.setitem df "Parsed_Date" _).
  assert (DF.lookup (date_column df) X1 = Some dates) as Hdates1.
  { unfold X1. rewrite DFFacts.lookup_setitem, bool_decide_eq_false_2; [done|].
    intros E. by apply (date_column_ne df). }
  assert (DF.lookup (id_column df) X1 = Some ids) as Hids1.
  { unfold X1. rewrite DFFacts.lookup_setitem, bool_decide_eq_false_2; [done|].
    intros E. by apply (id_column_ne df). }
  assert (exists parsed, DF.lookup "Parsed_Date" X1 = Some parsed) as [parsed Hparsed].
  { unfold X1. rewrite DFFacts.lookup_setitem, bool_decide_eq_true_2 by done. eauto. }
  eapply hoare_bind.
  { apply hoare_eval. intros exc. by rewrite (getitem_lookup _ _ _ Hparsed). }
  intros parsed' ? [-> _].
  eapply hoare_bind.
  { apply hoare_eval. intros exc. by rewrite (getitem_lookup _ _ _ Hdates1). }
  intros dates' ? [-> _].
  eapply hoare_bind; [apply hoare_this|intros a ? [-> ->]].
  eapply hoare_bind.
  { apply hoare_if_print; [|apply hoare_print].
    hoare_print.
    eapply hoare_bind.
    { apply hoare_eval. intros exc.
      match goal with |- DF.project ?d ?cs = _ -> _ =>
        destruct (project_returns d cs) as [sel ->]; [|done] end.
      intros c Hc. rewrite DFFacts.columns_select_rows.
      apply elem_of_cons in Hc as [->|Hc]; [by eapply DFFacts.lookup_Some_columns|].
      apply elem_of_cons in Hc as [->|Hc]; [by eapply DFFacts.lookup_Some_columns|].
      by apply elem_of_nil in Hc. }
    intros listing ? [-> _]. apply hoare_print. }
  intros _ ? ->.
  assert (DF.drop X1 "Parsed_Date" = Returned df) as Hdrop.
  { unfold DF.drop. rewrite bool_decide_eq_true_2.
    - unfold X1. by rewrite remove_setitem_notin.
    - by eapply DFFacts.lookup_Some_columns. }
  eapply hoare_bind.
  { apply hoare_update. intros exc. by rewrite Hdrop. }
  intros [] X2 HX2. simpl in HX2. rewrite Hdrop in HX2. apply Returned_inj in HX2. subst X2.
  hoare_print.
  eapply hoare_bind; [apply hoare_eval; done|intros dept ? [-> _]].
  hoare_print.
  eapply hoare_weaken; [apply hoare_this|]. by intros a X' [-> ->].
Qed.

(** C9, as the code has it. On a table that has no column labelled
    Parsed_Date, [profile_data] leaves the caller's table as it found it,
    whether it returns or raises: the working column it adds is removed
    before anything else can fail. When it returns, it returns that
    table. *)
Theorem profile_data_restores_frame (df : DataFrame) (console : list printed) :
  "Parsed_Date" ∉ DF.columns df ->
  exists console' r,
    profile_data (mkState df console) = (mkState df console', r)
    /\ forall out, r = Returned out -> out = df.
Proof.
  intros Hfresh. pose proof (profile_data_hoare df Hfresh console) as Hh.
  destruct (profile_data (mkState df console)) as [[X' console'] [out|exc]].
  - destruct Hh as [Hf ->]. simpl in Hf. subst X'.
    exists console', (Returned df). split; [done|]. by intros out [= <-].
  - simpl in Hh. subst X'. exists console', (Raised exc). split; [done|]. by intros out.
Qed.

End ProfilerFacts.

Lemma profile_data_restores_frame_witness :
  ("Parsed_Date" ∉ DF.columns Examples.staged)
  /\ exists console' r,
      @Profiler.profile_data iso_parser (Profiler.mkState Examples.staged [])
      = (Profiler.mkState Examples.staged console', r).
Proof.
  assert ("Parsed_Date" ∉ DF.columns Examples.staged) as Hfresh.
  { apply (bool_decide_unpack _). vm_compute. reflexivity. }
  split; [exact Hfresh|].
  destruct (@profile_data_restores_frame iso_parser Examples.staged [] Hfresh)
    as (console' & r & Hrun & _).
  exists console', r. exact Hrun.
Defined.

(** C9 as the specification states it fails on a table that already has a
    column labelled Parsed_Date: the profiler overwrites that column and
    removes it, so the caller's table has lost a column after the call. *)
Lemma profile_data_drops_column_counterexample :
  exists console',
    @Profiler.profile_data iso_parser (Profiler.mkState Examples.with_parsed_date [])
    = (Profiler.mkState (DF.remove "Parsed_Date" Examples.with_parsed_date) console',
       Returned (DF.remove "Parsed_Date" Examples.with_parsed_date))
    /\ DF.columns (DF.remove "Parsed_Date" Examples.with_parsed_date)
       ≠ DF.columns Examples.with_parsed_date
    /\ DF.lookup "Parsed_Date" Examples.with_parsed_date
       = Some [Str "kept by the caller"]
    /\ DF.lookup "Parsed_Date" (DF.remove "Parsed_Date" Examples.with_parsed_date) = None.
Proof.
  eexists. split; [vm_compute; reflexivity|].
  split; [vm_compute; discriminate|]. split; vm_compute; reflexivity.
Qed.

Lemma clean_data_defaults_witness :
  @clean_data iso_parser Examples.sparse = Returned Examples.sparse_cleaned
  /\ exists ids names names',
      DF.lookup "Employee_ID" Examples.sparse = Some ids
      /\ DF.lookup "Name" Examples.sparse = Some names
      /\ DF.lookup "Name" Examples.sparse_cleaned = Some names'
      /\ forall j i x,
          Rules.positions (Rules.keep_first ids) !! j = Some i ->
          names !! i = Some x -> isnull x = true ->
          names' !! j = Some (Str "Unknown").
Proof.
  assert (@clean_data iso_parser Examples.sparse = Returned Examples.sparse_cleaned)
    as Hr by (vm_compute; reflexivity).
  split; [exact Hr|].
  destruct (@clean_data_defaults iso_parser _ _ Hr)
    as (ids & names & ratings & countries & years & names' & ratings' & countries'
        & years' & Hids & Hn & _ & _ & _ & Hn' & _ & _ & _ & Hrows).
  exists ids, names, names'. split; [exact Hids|split; [exact Hn|split; [exact Hn'|]]].
  intros j i x Hi Hx Hnull. destruct (Hrows j i Hi) as (Hname & _). by eapply Hname.
Defined.

Lemma clean_data_missing_department_witness :
  @clean_data iso_parser Examples.sparse = Returned Examples.sparse_cleaned
  /\ exists ids raw,
      DF.lookup "Employee_ID" Examples.sparse = Some ids
      /\ DF.lookup "Department" Examples.sparse = Some raw
      /\ forall j i x,
          Rules.positions (Rules.keep_first ids) !! j = Some i ->
          raw !! i = Some x -> x = PyNone ->
          [Str "NONE"; Str "FINANCE"] !! j = Some (Str "NONE").
Proof.
  assert (@clean_data iso_parser Examples.sparse = Returned Examples.sparse_cleaned)
    as Hr by (vm_compute; reflexivity).
  split; [exact Hr|].
  destruct (@clean_data_missing_department iso_parser _ _ _ Hr eq_refl)
    as (ids & raw & Hids & Hraw & Hrows).
  exists ids, raw. split; [exact Hids|split; [exact Hraw|]].
  intros j i x Hi Hx ->.
  destruct (Hrows j i PyNone Hi Hx eq_refl) as (text & Hd & _ & Hnone & _).
  by rewrite Hd, (Hnone eq_refl).
Defined.

(** The failing input of C8: the first row of [Examples.sparse] has no
    Department, and the output row has the text "NONE". *)
Lemma clean_data_missing_department_example :
  DF.lookup "Department" Examples.sparse = Some [PyNone; Str "Fin"; PyNone]
  /\ exists out,
      @clean_data iso_parser Examples.sparse = Returned out
      /\ DF.lookup "Department" out = Some [Str "NONE"; Str "FINANCE"].
Proof.
  split; [reflexivity|]. exists Examples.sparse_cleaned.
  split; [vm_compute; reflexivity|reflexivity].
Qed.


(* ===================================================================== *)
(** * Further properties of the code *)
(* ===================================================================== *)

(** ** [clean_data]: when it raises *)

Section NormalizerErrors.
Context `{DateParser}.
Import DF DFFacts.








End NormalizerErrors.


(** ** [clean_data]: the shape of the output *)

Section NormalizerShape.
Context `{DateParser}.
Import Series_ Rules.

Lemma lookup_elem_of (df : DataFrame) c s :
  NoDup (DF.columns df) -> (c, s) ∈ df -> DF.lookup c df = Some s.
Proof.
  induction df as [|[n s0] df IH]; simpl.
  - intros _ Hin. by apply elem_of_nil in Hin.
  - intros Hnd Hin. apply NoDup_cons in Hnd as [Hn Hnd].
    apply elem_of_cons in Hin as [[= -> ->]|Hin].
    + by rewrite bool_decide_eq_true_2.
    + rewrite bool_decide_eq_false_2; [by apply IH|].
      intros ->. apply Hn. apply list_elem_of_fmap. by exists (c, s).
Qed.

Lemma wf_of_lengths (df : DataFrame) L :
  NoDup (DF.columns df) ->
  (forall c s, DF.lookup c df = Some s -> length s = L) ->
  DF.wf df /\ (df ≠ [] -> DF.nrows df = L).
Proof.
  intros Hnd Hlen.
  assert (Forall (fun col => length col.2 = L) df) as Hall.
  { apply Forall_forall. intros [c s] Hin. simpl. apply (Hlen c).
    by apply lookup_elem_of. }
  assert (df ≠ [] -> DF.nrows df = L) as Hrows.
  { destruct df as [|[c s] df]; [done|]. intros _. simpl.
    by apply Forall_cons in Hall as [? _]. }
  split; [|done]. split; [done|].
  destruct df as [|col df]; [constructor|].
  rewrite Hrows by done. exact Hall.
Qed.

Lemma length_select_le {A} mask (s : list A) : (length (select mask s) <= length s)%nat.
Proof.
  revert s. induction mask as [|b mask IH]; intros [|x s]; simpl; try lia.
  destruct b; simpl; specialize (IH s); lia.
Qed.

Lemma length_select_positions {A} i mask (s : list A) :
  length mask = length s -> length (select mask s) = length (positions_from i mask).
Proof.
  revert i s. induction mask as [|b mask IH]; intros i [|x s]; simpl; try done.
  intros [= Hl]. destruct b; simpl; by rewrite (IH (S i)).
Qed.

Lemma length_keep_first (ids : Series) : length (keep_first ids) = length ids.
Proof.
  unfold keep_first, duplicated.
  by rewrite length_fmap, RowFacts.length_duplicated_after.
Qed.

Lemma clean_data_shape (df out : DataFrame) ids :
  DF.wf df ->
  clean_data df = Returned out ->
  DF.lookup (id_column df) df = Some ids ->
  DF.wf out /\ DF.nrows out = length (select (keep_first ids) ids).
Proof.
  intros Hwf Hr Hids. pose proof Hr as Hr'.
  apply clean_data_spec in Hr' as (ids' & Hids' & Hreq & Hcols & Hl).
  rewrite Hids in Hids'. apply Some_inj in Hids' as <-.
  pose proof (wf_lookup_length df _ ids Hwf Hids) as Hlen_ids.
  assert (forall c s, DF.lookup c out = Some s ->
                      length s = length (select (keep_first ids) ids)) as Hlen.
  { intros c s. rewrite Hl. case_bool_decide; [done|].
    destruct (DF.lookup c df) as [s0|] eqn:Hs0; [|done]. intros [= <-].
    apply SeriesFacts.length_select_same.
    by rewrite RuleFacts.length_column_rule, (wf_lookup_length df c s0). }
  destruct (wf_of_lengths out _ ltac:(rewrite Hcols; apply NoDup_filter_ne, Hwf) Hlen)
    as [Hwf' Hrows].
  split; [done|]. apply Hrows.
  intros ->. pose proof (clean_data_identifiers df [] ids Hr Hids). done.
Qed.

(** X3. [clean_data] keeps the table well formed: the labels stay distinct
    and all columns of the output have one length, the number of retained
    rows, which is the number of first occurrences of an identifier and at
    most the number of rows of the input. *)
Theorem clean_data_wf (df out : DataFrame) :
  DF.wf df ->
  clean_data df = Returned out ->
  DF.wf out
  /\ (DF.nrows out <= DF.nrows df)%nat
  /\ exists ids,
      DF.lookup (id_column df) df = Some ids
      /\ DF.nrows out = length (positions (keep_first ids)).
Proof.
  intros Hwf Hr. pose proof Hr as Hr'.
  apply clean_data_spec in Hr' as (ids & Hids & _).
  destruct (clean_data_shape df out ids Hwf Hr Hids) as [Hwf' Hrows].
  split; [done|]. rewrite Hrows. split.
  - rewrite <- (wf_lookup_length df _ ids Hwf Hids). apply length_select_le.
  - exists ids. split; [done|]. apply length_select_positions, length_keep_first.
Qed.

(** X4. On a table without rows that has the columns it reads and no
    column labelled Date_Parsed, [clean_data] returns the table as it is. *)
Theorem clean_data_empty (df : DataFrame) :
  DF.wf df ->
  DF.nrows df = 0%nat ->
  "Date_Parsed" ∉ DF.columns df ->
  (forall c, c ∈ required_columns df -> c ∈ DF.columns df) ->
  clean_data df = Returned df.
Proof.
  intros Hwf Hrows Hfresh Hreq.
  destruct (clean_data_returns df Hreq) as [out Hr]. rewrite Hr. f_equal.
  apply clean_data_spec in Hr as (ids & Hids & _ & Hcols & Hl).
  rewrite DFFacts.filter_ne_id in Hcols by done.
  apply DFFacts.frame_ext; [rewrite Hcols; apply Hwf|done|].
  intros c. rewrite Hl. case_bool_decide as Hc.
  - subst c. symmetry. by apply DFFacts.lookup_None_columns.
  - destruct (DF.lookup c df) as [s|] eqn:Hs; [|done]. simpl. f_equal.
    pose proof (wf_lookup_length df c s Hwf Hs) as Hlen. rewrite Hrows in Hlen.
    apply nil_length_inv in Hlen as ->.
    assert (column_rule c [] = []) as ->.
    { apply nil_length_inv. by rewrite RuleFacts.length_column_rule. }
    apply SeriesFacts.select_nil.
Qed.

(** X5. On a table whose identifiers are pairwise different, [clean_data]
    drops no row: every column of the output is the rule of its label
    applied to the whole input column. *)
Theorem clean_data_distinct_identifiers (df out : DataFrame) ids :
  DF.wf df ->
  clean_data df = Returned out ->
  DF.lookup (id_column df) df = Some ids ->
  (forall i j a b, i ≠ j -> ids !! i = Some a -> ids !! j = Some b ->
                   same_key a b = false) ->
  DF.nrows out = DF.nrows df
  /\ forall c, c ≠ "Date_Parsed" ->
               DF.lookup c out = column_rule c <$> DF.lookup c df.
Proof.
  intros Hwf Hr Hids Hdistinct.
  destruct (clean_data_shape df out ids Hwf Hr Hids) as [_ Hrows].
  pose proof (RuleFacts.keep_first_distinct ids Hdistinct) as Hmask.
  pose proof (wf_lookup_length df _ ids Hwf Hids) as Hlen.
  split.
  - rewrite Hrows, Hmask, SeriesFacts.select_all; [done|lia].
  - intros c Hc. apply clean_data_spec in Hr as (ids' & Hids' & _ & _ & Hl).
    rewrite Hids in Hids'. apply Some_inj in Hids' as <-.
    rewrite Hl, bool_decide_eq_false_2 by done.
    destruct (DF.lookup c df) as [s|] eqn:Hs; [|done]. simpl. f_equal.
    rewrite Hmask. apply SeriesFacts.select_all.
    rewrite RuleFacts.length_column_rule, (wf_lookup_length df c s); [lia|done..].
Qed.

(** X6. The labels of the output of [clean_data] are the labels of the
    input in their order, without Date_Parsed: the working column is
    dropped even when the input already had a column of that label. *)
Theorem clean_data_labels (df out : DataFrame) :
  clean_data df = Returned out ->
  DF.columns out = filter (fun n => n ≠ "Date_Parsed") (DF.columns df)
  /\ ("Date_Parsed" ∉ DF.columns out)
  /\ ("Date_Parsed" ∉ DF.columns df -> DF.columns out = DF.columns df).
Proof.
  intros Hr. apply clean_data_spec in Hr as (_ & _ & _ & Hcols & _).
  split; [done|split].
  - rewrite Hcols, list_elem_of_filter. by intros [? _].
  - intros Hfresh. by rewrite Hcols, DFFacts.filter_ne_id.
Qed.

(** X7. A column that no rule rewrites (the surrogate key, the identifier,
    Age, Salary, any other label) goes through [clean_data] untouched: the
    output holds the cells of the retained rows as they were, missing
    values included. *)
Theorem clean_data_other_columns (df out : DataFrame) c :
  clean_data df = Returned out ->
  c ∉ Labels.rewritten_columns -> c ≠ "Date_Parsed" ->
  exists ids,
    DF.lookup (id_column df) df = Some ids
    /\ DF.lookup c out = select (keep_first ids) <$> DF.lookup c df.
Proof.
  intros Hr Hc Hdp. apply clean_data_spec in Hr as (ids & Hids & _ & _ & Hl).
  exists ids. split; [done|]. rewrite Hl, bool_decide_eq_false_2 by done.
  unfold Labels.rewritten_columns in Hc. rewrite !not_elem_of_cons in Hc.
  destruct Hc as (? & ? & ? & ? & ? & ? & _).
  unfold column_rule. by decide_labels.
Qed.

End NormalizerShape.

(** ** [clean_data]: the normal forms of the cells *)

Section NormalForms.
Context `{DateParser}.
Import Series_ Rules.



Lemma dept_mapping_labels key label :
  dept_mapping !! key = Some label -> label ∈ Labels.canonical_labels.
Proof.
  intros Hl. apply elem_of_list_to_map_2 in Hl.
  repeat (apply elem_of_cons in Hl as [Hl|Hl];
          [apply pair_equal_spec in Hl as [_ ->]; by repeat constructor|]).
  by apply elem_of_nil in Hl.
Qed.

(** X9. Every Department of the output of [clean_data] is one of the ten
    canonical labels, or a text that is not a key of the map, has no
    whitespace and is its own upper case. *)
Theorem clean_data_department_normal (df out : DataFrame) depts :
  clean_data df = Returned out ->
  DF.lookup "Department" out = Some depts ->
  forall j d, depts !! j = Some d ->
    exists s, d = Str s
              /\ (s ∈ Labels.canonical_labels
                  \/ (dept_mapping !! s = None
                      /\ PyStr.no_space s = true /\ PyStr.upper s = s)).
Proof.
  intros Hr Hcol j d Hd.
  destruct (clean_data_cell_inv df out _ depts Hr Hcol) as (ids & s & _ & _ & Hcell).
  rewrite Hcell in Hd. apply lookup_bind_Some in Hd as (i & _ & Hd).
  unfold column_rule in Hd. decide_labels_in Hd. rewrite list_lookup_fmap in Hd.
  destruct (s !! i) as [x|]; [|done]. injection Hd as <-.
  unfold department_rule, canonical. eexists. split; [reflexivity|].
  destruct (dept_mapping !! department_key x) as [label|] eqn:Hl; simpl.
  - left. by eapply dept_mapping_labels.
  - right. split; [done|]. unfold department_key. split.
    + rewrite PyStrFacts.no_space_upper. apply PyStrFacts.no_space_remove_whitespace.
    + apply PyStrFacts.upper_idem.
Qed.

(** A Department that is already a canonical label, "CUSTOMER SUPPORT"
    with its space and "R&D" among them, comes out of the rule as it
    went in. *)
Lemma department_rule_canonical label :
  label ∈ Labels.canonical_labels -> department_rule (Str label) = Str label.
Proof.
  intros Hl. unfold Labels.canonical_labels in Hl.
  repeat (apply elem_of_cons in Hl as [->|Hl]; [by vm_compute|]).
  by apply elem_of_nil in Hl.
Qed.

(** X10. The columns with a default hold no missing value in the output of
    [clean_data]: Name, Performance_Rating, Country, Years_of_Experience
    and Date_of_Joining. *)
Theorem clean_data_no_missing (df out : DataFrame) c col :
  clean_data df = Returned out ->
  c ∈ ["Name"; "Performance_Rating"; "Country"; "Years_of_Experience";
       "Date_of_Joining"] ->
  DF.lookup c out = Some col ->
  forall j d, col !! j = Some d -> isnull d = false.
Proof.
  intros Hr Hc Hcol j d Hd.
  destruct (clean_data_cell_inv df out c col Hr Hcol) as (ids & s & _ & _ & Hcell).
  rewrite Hcell in Hd. apply lookup_bind_Some in Hd as (i & _ & Hd).
  unfold column_rule in Hd.
  repeat (apply elem_of_cons in Hc as [->|Hc]);
    [..|by apply elem_of_nil in Hc]; decide_labels_in Hd;
    unfold date_rule in Hd; rewrite list_lookup_fmap in Hd;
    (destruct (_ !! i) as [x|]; [|done]); injection Hd as <-; try done.
  - unfold fill_unknown. by destruct (isnull x) eqn:E.
  - unfold years_rule. by destruct (isnull x) eqn:E.
Qed.

End NormalForms.

(** ** [profile_data]: when it returns *)

Section ProfilerReturns.
Context `{DateParser}.
Import Profiler.

(** One statement that prints. *)
Ltac print_step :=
  eapply hoare_bind; [apply hoare_print|intros _ ? ->].

Lemma remove_setitem (df : DataFrame) c s :
  DF.remove c (DF.setitem df c s) = DF.remove c df.
Proof.
  induction df as [|[n s0] df IH]; simpl.
  - by rewrite bool_decide_eq_true_2.
  - case_bool_decide; simpl.
    + by rewrite bool_decide_eq_true_2.
    + rewrite bool_decide_eq_false_2 by done. by rewrite IH.
Qed.

Lemma getitem_raised_absent (df : DataFrame) c exc :
  DF.getitem df c = Raised exc -> c ∉ DF.columns df.
Proof.
  unfold DF.getitem. destruct (DF.lookup c df) eqn:E; [done|].
  intros _. by apply DFFacts.lookup_None_columns.
Qed.

(** [profile_data] as a specification, on any table: it returns the
    table without a Parsed_Date column when the columns it reads are
    there, and raises when one of them is not. *)
Lemma profile_data_hoare_columns (df : DataFrame) :
  hoare df profile_data
    (fun out X' =>
       X' = DF.remove "Parsed_Date" df /\ out = X'
       /\ forall c, c ∈ Labels.profiled_columns df -> c ∈ DF.columns df)
    (fun _ => exists c, c ∈ Labels.profiled_columns df /\ c ∉ DF.columns df).
Proof.
  unfold profile_data.
  print_step.
  eapply hoare_bind; [apply hoare_this|intros a ? [-> ->]].
  do 6 print_step.
  eapply hoare_bind.
  { apply hoare_eval. intros exc He. destruct df; [|done].
    exists (id_column []). split; [by left|apply not_elem_of_nil]. }
  intros [] ? [-> _].
  print_step. cbv zeta.
  eapply hoare_bind.
  { apply hoare_eval. intros exc He. apply getitem_raised_absent in He.
    eexists. split; [|done]. by repeat constructor. }
  intros ids ? [-> Hids].
  eapply hoare_bind.
  { apply hoare_eval. intros exc He. apply getitem_raised_absent in He.
    eexists. split; [|done]. by repeat constructor. }
  intros names ? [-> Hnames].
  apply DFFacts.getitem_Returned in Hids, Hnames.
  eapply hoare_bind.
  { apply hoare_if_print; [|apply hoare_print].
    eapply hoare_bind; [apply hoare_print|intros _ ? ->; apply hoare_print]. }
  intros _ ? ->.
  eapply hoare_bind.
  { apply hoare_eval. intros exc He. apply getitem_raised_absent in He.
    eexists. split; [|done]. by repeat constructor. }
  intros dates ? [-> Hdates].
  apply DFFacts.getitem_Returned in Hdates.
  eapply hoare_bind; [apply hoare_update; done|intros [] X1 HX1]; simpl in HX1.
  apply Returned_inj in HX1. subst X1.
  set (X1 := DF.setitem df "Parsed_Date" _).
  assert (DF.lookup (date_column df) X1 = Some dates) as Hdates1.
  { unfold X1. rewrite DFFacts.lookup_setitem, bool_decide_eq_false_2; [done|].
    intros E. by apply (date_column_ne df). }
  assert (DF.lookup (id_column df) X1 = Some ids) as Hids1.
  { unfold X1. rewrite DFFacts.lookup_setitem, bool_decide_eq_false_2; [done|].
    intros E. by apply (id_column_ne df). }
  assert (exists parsed, DF.lookup "Parsed_Date" X1 = Some parsed) as [parsed Hparsed].
  { unfold X1. rewrite DFFacts.lookup_setitem, bool_decide_eq_true_2 by done. eauto. }
  eapply hoare_bind.
  { apply hoare_eval. intros exc. by rewrite (getitem_lookup _ _ _ Hparsed). }
  intros parsed' ? [-> _].
  eapply hoare_bind.
  { apply hoare_eval. intros exc. by rewrite (getitem_lookup _ _ _ Hdates1). }
  intros dates' ? [-> _].
  eapply hoare_bind; [apply hoare_this|intros a ? [-> ->]].
  eapply hoare_bind.
  { apply hoare_if_print; [|apply hoare_print].
    print_step.
    eapply hoare_bind.
    { apply hoare_eval. intros exc.
      match goal with |- DF.project ?d ?cs = _ -> _ =>
        destruct (project_returns d cs) as [sel ->]; [|done] end.
      intros c Hc. rewrite DFFacts.columns_select_rows.
      apply elem_of_cons in Hc as [->|Hc]; [by eapply DFFacts.lookup_Some_columns|].
      apply elem_of_cons in Hc as [->|Hc]; [by eapply DFFacts.lookup_Some_columns|].
      by apply elem_of_nil in Hc. }
    intros listing ? [-> _]. apply hoare_print. }
  intros _ ? ->.
  assert (DF.drop X1 "Parsed_Date" = Returned (DF.remove "Parsed_Date" df)) as Hdrop.
  { unfold DF.drop. rewrite bool_decide_eq_true_2.
    - unfold X1. by rewrite remove_setitem.
    - by eapply DFFacts.lookup_Some_columns. }
  eapply hoare_bind.
  { apply hoare_update. intros exc. by rewrite Hdrop. }
  intros [] X2 HX2. simpl in HX2. rewrite Hdrop in HX2. apply Returned_inj in HX2. subst X2.
  print_step.
  eapply hoare_bind.
  { apply hoare_eval. intros exc He. apply getitem_raised_absent in He.
    exists "Department". split; [by repeat constructor|].
    intros Hin. apply He. rewrite DFFacts.columns_remove.
    by apply list_elem_of_filter. }
  intros dept ? [-> Hdept].
  apply DFFacts.getitem_Returned in Hdept.
  rewrite DFFacts.lookup_remove in Hdept. decide_labels_in Hdept.
  print_step.
  eapply hoare_weaken; [apply hoare_this|]. intros a X' [-> ->].
  split; [done|split; [done|]]. intros c Hc. unfold Labels.profiled_columns in Hc.
  repeat (apply elem_of_cons in Hc as [->|Hc]; [by eapply DFFacts.lookup_Some_columns|]).
  by apply elem_of_nil in Hc.
Qed.


(** X13. When [profile_data] returns, the caller's table is the input
    without any column labelled Parsed_Date, every other column as it was,
    and that table is the value returned. *)
Theorem profile_data_returns_frame (df : DataFrame) (console : list printed) st out :
  profile_data (mkState df console) = (st, Returned out) ->
  frame st = DF.remove "Parsed_Date" df
  /\ out = DF.remove "Parsed_Date" df
  /\ forall c, c ≠ "Parsed_Date" -> DF.lookup c out = DF.lookup c df.
Proof.
  intros Hrun. pose proof (profile_data_hoare_columns df console) as Hh.
  rewrite Hrun in Hh. destruct Hh as (Hf & -> & _).
  split; [done|split; [done|]]. intros c Hc.
  rewrite Hf, DFFacts.lookup_remove. by rewrite bool_decide_eq_false_2.
Qed.

End ProfilerReturns.

(** ** The store: which batches it takes *)

Module StoreFacts.
Import Store.



Lemma insert_all_app st rows st' :
  insert_all st rows = Returned st' ->
  employee_data st' = employee_data st /\ pending st' = (pending st ++ rows)%list.
Proof.
  revert st. induction rows as [|r rows IH]; intros st; simpl.
  - intros [= <-]. by rewrite app_nil_r.
  - intros Hr. apply bind_Returned in Hr as (st1 & H1 & Hr).
    apply IH in Hr as [-> ->]. unfold insert in H1.
    destruct (key r) as [[| | |k| |]|]; try done.
    destruct (has_key k _); [done|]. injection H1 as <-. simpl.
    by rewrite <- app_assoc.
Qed.



(** A batch with a row whose key is NULL is refused, whatever the other
    rows are. *)
Lemma insert_all_null_key st rows r :
  r ∈ rows -> key r = Some PyNone -> exists e, insert_all st rows = Raised e.
Proof.
  revert st. induction rows as [|r0 rows IH]; intros st Hin Hr.
  - by apply elem_of_nil in Hin.
  - simpl. apply elem_of_cons in Hin as [<-|Hin].
    + unfold insert at 1. rewrite Hr. cbn [mbind result_bind]. eauto.
    + destruct (insert st r0) as [st'|e]; cbn [mbind result_bind]; [|eauto].
      by apply IH.
Qed.

End StoreFacts.

(** ** The rows of the INSERT *)

Section Batch.
Import Loader.

Lemma omap_total {A B} (f : A -> option B) (h : A -> B) (l : list A) :
  (forall x, x ∈ l -> f x = Some (h x)) -> omap f l = h <$> l.
Proof.
  induction l as [|x l IH]; intros Hf; simpl; [done|].
  rewrite (Hf x) by (by left). simpl. f_equal. apply IH. intros y Hy. apply Hf. by right.
Qed.

Lemma row_wf (df : DataFrame) i :
  DF.wf df -> (i < DF.nrows df)%nat ->
  DF.row df i = Some ((fun col : string * Series => default NaN (col.2 !! i)) <$> df).
Proof.
  intros [_ Hlen] Hi. unfold DF.row. apply mapM_Some_2.
  apply Forall2_fmap_r, Forall_Forall2_diag.
  eapply Forall_impl; [exact Hlen|]. intros [c s] Hs. simpl in *.
  destruct (lookup_lt_is_Some_2 s i) as [x Hx]; [lia|]. by rewrite Hx.
Qed.

(** [df.values] of a well-formed frame: one row per position, one cell
    per column. *)
Lemma values_wf (df : DataFrame) :
  DF.wf df ->
  DF.values df
  = (fun i => (fun col : string * Series => default NaN (col.2 !! i)) <$> df)
      <$> seq 0 (DF.nrows df).
Proof.
  intros Hwf. unfold DF.values. apply omap_total. intros i Hi.
  apply row_wf; [done|]. apply elem_of_seq in Hi. lia.
Qed.

Lemma values_keys c s (df : DataFrame) :
  DF.wf ((c, s) :: df) -> Store.key <$> DF.values ((c, s) :: df) = Some <$> s.
Proof.
  intros Hwf. rewrite (values_wf _ Hwf), <- list_fmap_compose. simpl.
  apply list_eq. intros i. rewrite !list_lookup_fmap.
  destruct (decide (i < length s)%nat) as [Hi|Hi].
  - rewrite lookup_seq_lt by done. simpl.
    destruct (lookup_lt_is_Some_2 s i Hi) as [x Hx]. by rewrite Hx.
  - rewrite lookup_seq_ge by lia. by rewrite lookup_ge_None_2 by lia.
Qed.

Lemma lookup_where_notnull c (df : DataFrame) :
  DF.lookup c (where_notnull df)
  = (fun s : Series => none_if_na <$> s) <$> DF.lookup c df.
Proof.
  induction df as [|[n s] df IH]; simpl; [done|]. by case_bool_decide.
Qed.

Lemma nrows_where_notnull (df : DataFrame) : DF.nrows (where_notnull df) = DF.nrows df.
Proof. destruct df as [|[c s] df]; simpl; [done|]. apply length_fmap. Qed.

Lemma wf_where_notnull (df : DataFrame) : DF.wf df -> DF.wf (where_notnull df).
Proof.
  intros [Hnd Hlen]. split; [by rewrite columns_where_notnull|].
  rewrite nrows_where_notnull. unfold where_notnull.
  apply Forall_fmap. eapply Forall_impl; [exact Hlen|].
  intros [c s] Hs. simpl in *. by rewrite length_fmap.
Qed.

Lemma project_lookup (df sel : DataFrame) cs :
  DF.project df cs = Returned sel ->
  Forall (fun col : string * Series => DF.lookup col.1 df = Some col.2) sel.
Proof.
  revert sel. induction cs as [|c cs IH]; intros sel; simpl.
  - intros [= <-]. constructor.
  - intros Hp. apply bind_Returned in Hp as (s & Hs & Hp).
    apply bind_Returned in Hp as (rest & Hrest & Hp).
    apply Returned_inj in Hp as <-. apply DFFacts.getitem_Returned in Hs.
    constructor; [done|]. by apply IH.
Qed.

Lemma project_raises (df : DataFrame) cs e :
  DF.project df cs = Raised e ->
  exists c, e = KeyError c /\ c ∈ cs /\ c ∉ DF.columns df.
Proof.
  induction cs as [|c cs IH]; simpl; [done|].
  unfold DF.getitem at 1. destruct (DF.lookup c df) as [s|] eqn:Hs; cbn [mbind result_bind].
  - destruct (DF.project df cs) as [rest|e'] eqn:Hp; cbn [mbind result_bind]; [done|].
    intros [= <-]. destruct (IH eq_refl) as (c' & -> & Hc' & Hn).
    exists c'. split; [done|split; [by right|done]].
  - intros [= <-]. exists c. split; [done|split; [by left|]].
    by apply DFFacts.lookup_None_columns.
Qed.

(** A selection of distinct columns of a well-formed frame is well
    formed and has its rows. *)
Lemma project_wf (df sel : DataFrame) cs :
  DF.wf df -> NoDup cs -> cs ≠ [] ->
  DF.project df cs = Returned sel ->
  DF.wf sel /\ DF.nrows sel = DF.nrows df.
Proof.
  intros Hwf Hnd Hne Hsel.
  pose proof (project_columns _ _ _ Hsel) as Hcols.
  pose proof (project_lookup _ _ _ Hsel) as Hlook.
  destruct (wf_of_lengths sel (DF.nrows df)) as [Hw Hn].
  - by rewrite Hcols.
  - intros c s Hs.
    assert (DF.lookup c df = Some s) as Hs'.
    { clear -Hlook Hs. induction Hlook as [|[n s0] sel H0 _ IH]; simpl in *; [done|].
      case_bool_decide; [by simplify_eq|auto]. }
    by eapply wf_lookup_length.
  - split; [done|]. apply Hn. intros ->. by rewrite <- Hcols in Hne.
Qed.

Lemma none_if_na_idem x : none_if_na (none_if_na x) = none_if_na x.
Proof. unfold none_if_na. by destruct (isnull x) eqn:E; [|rewrite E]. Qed.

Lemma NoDup_insert_labels (df : DataFrame) : NoDup (id_column df :: insert_columns).
Proof.
  destruct (id_column_cases df) as [-> | ->];
    apply (bool_decide_unpack _); by vm_compute.
Qed.

(** The frame [data_to_insert] takes its rows from: the identifier
    column, then the eight other columns of the INSERT, every missing
    value already None. *)
Lemma data_to_insert_selected (df : DataFrame) rows :
  DF.wf df ->
  data_to_insert df = Returned rows ->
  exists ids sel,
    DF.lookup (id_column df) df = Some ids
    /\ DF.columns sel = insert_columns
    /\ DF.wf ((id_column df, none_if_na <$> ids) :: sel)
    /\ length ids = DF.nrows df
    /\ rows = (fun r : Store.row => none_if_na <$> r)
                <$> DF.values ((id_column df, none_if_na <$> ids) :: sel).
Proof.
  intros Hwf Hd. unfold data_to_insert in Hd.
  apply bind_Returned in Hd as (sel & Hsel & Hd). apply Returned_inj in Hd as <-.
  pose proof (project_columns _ _ _ Hsel) as Hcols.
  pose proof (project_lookup _ _ _ Hsel) as Hlook.
  destruct (project_wf _ _ _ (wf_where_notnull df Hwf) (NoDup_insert_labels df)
              ltac:(done) Hsel) as [Hwfs Hrows].
  destruct sel as [|[c0 s0] sel]; [done|]. injection Hcols as -> Hcols.
  apply Forall_cons in Hlook as [Hid _]. simpl in Hid.
  rewrite lookup_where_notnull in Hid.
  destruct (DF.lookup (id_column df) df) as [ids|] eqn:Hids; [|done].
  injection Hid as <-.
  exists ids, sel. repeat split; try done.
  - apply Hwfs.
  - apply Hwfs.
  - simpl in Hrows. rewrite length_fmap, nrows_where_notnull in Hrows. done.
Qed.

Lemma data_to_insert_keys (df : DataFrame) rows :
  DF.wf df ->
  data_to_insert df = Returned rows ->
  exists ids,
    DF.lookup (id_column df) df = Some ids
    /\ Store.key <$> rows = (fun x => Some (none_if_na x)) <$> ids.
Proof.
  intros Hwf Hd.
  destruct (data_to_insert_selected df rows Hwf Hd) as (ids & sel & Hids & _ & Hwfs & _ & ->).
  exists ids. split; [done|].
  rewrite <- list_fmap_compose.
  transitivity ((fun o : option cell => none_if_na <$> o) <$> (Store.key <$> DF.values
                  ((id_column df, none_if_na <$> ids) :: sel))).
  - rewrite <- list_fmap_compose. apply list_fmap_ext. intros _ r _. simpl.
    unfold Store.key. by destruct r.
  - rewrite (values_keys _ _ _ Hwfs), <- !list_fmap_compose.
    apply list_fmap_ext. intros _ x _. simpl. by rewrite none_if_na_idem.
Qed.

(** X14. The rows [data_to_insert] builds from a well-formed table: one
    row per row of the table, nine cells each, and no NaN or NaT among
    them: every missing value has become None. *)
Theorem data_to_insert_rows (df : DataFrame) rows :
  DF.wf df ->
  data_to_insert df = Returned rows ->
  length rows = DF.nrows df
  /\ forall r, r ∈ rows ->
       length r = 9%nat /\ forall x, x ∈ r -> isnull x = true -> x = PyNone.
Proof.
  intros Hwf Hd.
  destruct (data_to_insert_selected df rows Hwf Hd)
    as (ids & sel & Hids & Hcols & Hwfs & Hlen & ->).
  split.
  - rewrite length_fmap, (values_wf _ Hwfs), length_fmap, length_seq. simpl.
    by rewrite length_fmap.
  - intros r Hr. apply list_elem_of_fmap in Hr as (r0 & -> & Hr0).
    rewrite (values_wf _ Hwfs) in Hr0. apply list_elem_of_fmap in Hr0 as (i & -> & _).
    split.
    + rewrite !length_fmap. simpl. f_equal.
      assert (length (DF.columns sel) = 8%nat) as Hl by (by rewrite Hcols).
      unfold DF.columns in Hl. by rewrite length_fmap in Hl.
    + intros x Hx Hnull. apply list_elem_of_fmap in Hx as (y & -> & _).
      unfold none_if_na in *. by destruct (isnull y) eqn:E; [|rewrite E in Hnull].
Qed.

(** X15. A table that lacks one of the nine columns of the INSERT makes
    [load_clean_data_to_final_table] raise KeyError: the selection of the
    columns is outside the try blocks. Nothing is inserted, printed or
    exported. *)
Theorem load_raises_missing_column (cleaned_df : DataFrame) (w : world) w' e :
  load_clean_data_to_final_table cleaned_df w = (w', Raised e) ->
  (exists c, e = KeyError c
             /\ c ∈ id_column cleaned_df :: insert_columns
             /\ c ∉ DF.columns cleaned_df)
  /\ db w' = Store.commit (db w)
  /\ stdout w' = stdout w
  /\ employee_db_csv w' = employee_db_csv w.
Proof.
  unfold load_clean_data_to_final_table.
  destruct (data_to_insert cleaned_df) as [rows|e'] eqn:Hd; [done|].
  intros [= <- <-]. split; [|done].
  unfold data_to_insert in Hd.
  destruct (DF.project _ _) as [sel|e2] eqn:Hp; [done|].
  injection Hd as <-. apply project_raises in Hp as (c & -> & Hc & Hn).
  rewrite columns_where_notnull in Hn. eauto.
Qed.

Lemma data_to_insert_returns_iff (df : DataFrame) :
  (exists rows, data_to_insert df = Returned rows)
  <-> forall c, c ∈ id_column df :: insert_columns -> c ∈ DF.columns df.
Proof.
  unfold data_to_insert. split.
  - intros [rows Hd] c Hc. apply bind_Returned in Hd as (sel & Hp & _).
    apply project_lookup in Hp as Hlook. apply project_columns in Hp.
    rewrite <- Hp in Hc. apply list_elem_of_fmap in Hc as ([c' s] & -> & Hin).
    eapply Forall_forall in Hlook; [|exact Hin]. simpl in *.
    apply DFFacts.lookup_Some_columns in Hlook. by rewrite columns_where_notnull in Hlook.
  - intros Hall.
    destruct (project_returns (where_notnull df) (id_column df :: insert_columns))
      as [sel ->]; [|cbn [mbind result_bind]; eauto].
    intros c Hc. rewrite columns_where_notnull. by apply Hall.
Qed.

(** X16. The loader returns normally exactly on the tables that have the
    nine columns of the INSERT, whatever the store does with the rows. *)
Theorem load_returns_iff (cleaned_df : DataFrame) (w : world) :
  (exists w', load_clean_data_to_final_table cleaned_df w = (w', Returned tt))
  <-> forall c, c ∈ id_column cleaned_df :: insert_columns -> c ∈ DF.columns cleaned_df.
Proof.
  rewrite <- data_to_insert_returns_iff. unfold load_clean_data_to_final_table.
  destruct (data_to_insert cleaned_df) as [rows|e]; split.
  - eauto.
  - eauto.
  - by intros [w' [= _ ?]].
  - by intros [rows ?].
Qed.

(** X17. What a call of the loader that returns leaves behind: the final
    table is the table as it was, or that table followed by all rows of
    the batch, never a part of the batch; nothing stays uncommitted; and
    the exported file holds the final table. *)
Theorem load_all_or_nothing (cleaned_df : DataFrame) (w w' : world) rows :
  data_to_insert cleaned_df = Returned rows ->
  load_clean_data_to_final_table cleaned_df w = (w', Returned tt) ->
  (Store.select_all (db w') = Store.select_all (Store.commit (db w))
   \/ Store.select_all (db w') = (Store.select_all (Store.commit (db w)) ++ rows)%list)
  /\ Store.pending (db w') = []
  /\ employee_db_csv w' = Some (Store.select_all (db w')).
Proof.
  intros Hd. unfold load_clean_data_to_final_table. rewrite Hd.
  unfold insert_clean_data, Store.executemany, Store.create_table_if_not_exists.
  cbn [db print with_db].
  destruct (Store.insert_all (Store.commit (db w)) rows) as [st'|e] eqn:Hins;
    intros [= <-]; simpl.
  - apply StoreFacts.insert_all_app in Hins as [-> ->]. simpl.
    split; [by right|done].
  - split; [by left|done].
Qed.

End Batch.

(** ** From the staged table to the final table *)

Section Pipeline.
Context `{DateParser}.
Import Series_ Rules Loader.



Lemma not_working_label (df : DataFrame) c :
  c ∈ id_column df :: insert_columns -> c ≠ "Date_Parsed".
Proof.
  intros Hc ->. revert Hc.
  destruct (id_column_cases df) as [-> | ->];
    apply (bool_decide_unpack (_ ∉ _)); by vm_compute.
Qed.

(** The output of [clean_data] has what the loader selects when the
    input has it; the keys of the batch are the retained identifiers. *)
Lemma clean_data_loadable (df out : DataFrame) ids :
  DF.wf df ->
  clean_data df = Returned out ->
  (forall c, c ∈ insert_columns -> c ∈ DF.columns df) ->
  DF.lookup (id_column df) df = Some ids ->
  exists rows,
    data_to_insert out = Returned rows
    /\ Store.key <$> rows
       = (fun x => Some (none_if_na x)) <$> select (keep_first ids) ids.
Proof.
  intros Hwf Hr Hcols Hids.
  destruct (clean_data_shape df out ids Hwf Hr Hids) as [Hwf' _].
  pose proof (clean_data_identifiers df out ids Hr Hids) as Hout.
  pose proof Hr as Hr'. apply clean_data_spec in Hr' as (_ & _ & _ & Hc & _).
  pose proof (id_column_filter df out Hc) as Hidc.
  destruct (proj2 (data_to_insert_returns_iff out)) as [rows Hd].
  { intros c Hc'. rewrite Hidc in Hc'. rewrite Hc. apply list_elem_of_filter. split.
    - by eapply not_working_label.
    - apply elem_of_cons in Hc' as [->|Hc']; [|by apply Hcols].
      by eapply DFFacts.lookup_Some_columns. }
  exists rows. split; [done|].
  destruct (data_to_insert_keys out rows Hwf' Hd) as (ids' & Hids' & Hk).
  rewrite Hidc, Hout in Hids'. by apply Some_inj in Hids' as <-.
Qed.


(** X19. One row without identifier in the staged table keeps the whole
    cleaned table out of the final table: [clean_data] retains such a row,
    the loader turns its identifier into NULL, the store refuses the
    batch, and the loader prints the error and returns with the final
    table as it was. *)
Theorem clean_then_load_missing_identifier (df out : DataFrame) ids x (w : world) :
  DF.wf df ->
  clean_data df = Returned out ->
  (forall c, c ∈ insert_columns -> c ∈ DF.columns df) ->
  DF.lookup (id_column df) df = Some ids ->
  x ∈ ids -> isnull x = true ->
  exists w' e,
    load_clean_data_to_final_table out w = (w', Returned tt)
    /\ Failure "An error occurred when inserting clean data" e ∈ stdout w'
    /\ db w' = Store.commit (db w)
    /\ employee_db_csv w' = Some (Store.select_all (Store.commit (db w))).
Proof.
  intros Hwf Hr Hcols Hids Hx Hnull.
  destruct (clean_data_loadable df out ids Hwf Hr Hcols Hids) as (rows & Hd & Hk).
  apply list_elem_of_lookup in Hx as [i Hi].
  destruct (KeyFacts.select_keep_first_covers ids i x Hi) as (j & y & Hj & Hsame).
  rewrite SeriesFacts.same_key_null in Hsame by done.
  assert (exists r, r ∈ rows /\ Store.key r = Some PyNone) as (r & Hin & Hkey).
  { apply (f_equal (fun l => l !! j)) in Hk.
    rewrite !list_lookup_fmap, Hj in Hk. simpl in Hk.
    destruct (rows !! j) as [r|] eqn:Hrj; [|done]. exists r. split.
    - by eapply list_elem_of_lookup_2.
    - injection Hk as ->. unfold none_if_na. by rewrite Hsame. }
  destruct (StoreFacts.insert_all_null_key (Store.commit (db w)) rows r Hin Hkey)
    as [e Hins].
  exists (validate_and_export
            (print (Failure "An error occurred when inserting clean data" e)
               (print (Rows (take 5 rows))
                  (print (Text "Sample data to insert:")
                     (with_db (Store.commit (db w)) w))))), e.
  split; [|split; [|done]].
  - unfold load_clean_data_to_final_table. rewrite Hd.
    unfold insert_clean_data, Store.executemany, Store.create_table_if_not_exists.
    cbn [db print with_db]. rewrite Hins. reflexivity.
  - apply stdout_validate_and_export. cbn [stdout print with_db].
    rewrite !elem_of_app. right. by left.
Qed.





Lemma length_missing_rule c (s : Series) : length (missing_rule c s) = length s.
Proof. unfold missing_rule. repeat case_bool_decide; by rewrite ?length_fmap. Qed.

Lemma length_text_rule c (s : Series) : length (text_rule c s) = length s.
Proof. unfold text_rule. repeat case_bool_decide; by rewrite ?length_fmap. Qed.

Lemma nrows_eq (a b : DataFrame) :
  DF.columns a = DF.columns b ->
  (forall c sa sb, DF.lookup c a = Some sa -> DF.lookup c b = Some sb ->
                   length sa = length sb) ->
  DF.nrows a = DF.nrows b.
Proof.
  destruct a as [|[c s] a], b as [|[c' s'] b]; simpl; try done.
  intros [= -> _] Hl. apply (Hl c'); simpl; by rewrite bool_decide_eq_true_2.
Qed.

(** X11. The line [clean_data] prints: on a well-formed table the number
    it reports as dropped is the number of rows of the input less the
    number of rows of the table it returns, and it is the only line. *)
Theorem clean_data_reports_dropped_rows (df out : DataFrame) (w : world) :
  DF.wf df ->
  clean_data df = Returned out ->
  Main.clean_data_with_report df w
  = (print (Number "Deduplicated records: dropped duplicate rows"
              (DF.nrows df - DF.nrows out)) w,
     Returned out).
Proof.
  intros Hwf Hr. unfold clean_data in Hr.
  apply bind_Returned in Hr as (df1 & H1 & Hr).
  apply bind_Returned in Hr as (df2 & H2 & Hr).
  apply bind_Returned in Hr as (df3 & H3 & H4).
  unfold Main.clean_data_with_report. rewrite H1. cbn [mbind result_bind].
  rewrite H2, H3, H4.
  apply resolve_missing_values_spec in H1 as (Hc1 & _ & Hl1).
  apply standardize_date_format_spec in H2 as (joined & Hj & Hc2 & Hl2).
  apply normalize_text_fields_spec in H4 as (Hc4 & _ & Hl4).
  assert (DF.nrows df2 = DF.nrows df) as ->.
  { destruct (wf_of_lengths df2 (DF.nrows df)) as [_ Hrows].
    - rewrite Hc2, Hc1. apply NoDup_filter_ne, Hwf.
    - assert (forall c s, DF.lookup c df1 = Some s -> length s = DF.nrows df) as Hlen1.
      { intros c s. rewrite Hl1. destruct (DF.lookup c df) as [s0|] eqn:Hs0; [|done].
        intros [= <-]. rewrite length_missing_rule. by eapply wf_lookup_length. }
      intros c s. rewrite Hl2. repeat case_bool_decide; [done| |by apply Hlen1].
      intros [= <-]. unfold date_rule.
      rewrite length_fmap, to_datetime_length. by eapply Hlen1.
    - apply Hrows. intros ->. specialize (Hl2 "Date_of_Joining"). done. }
  assert (DF.nrows df3 = DF.nrows out) as ->; [|done].
  symmetry. apply nrows_eq; [done|].
  intros c sa sb Ha. rewrite Hl4 in Ha. intros Hb. rewrite Hb in Ha.
  injection Ha as <-. apply length_text_rule.
Qed.






End Pipeline.

(** ** The further properties on the tables of the examples *)

Ltac frame_wf :=
  split; [apply (bool_decide_unpack _); vm_compute; reflexivity|repeat constructor].

Ltac labels_present :=
  apply (proj1 (Forall_forall _ _)); apply (bool_decide_unpack _);
  vm_compute; reflexivity.

Lemma clean_data_wf_witness :
  DF.wf Examples.staged
  /\ @clean_data iso_parser Examples.staged = Returned Examples.cleaned
  /\ DF.wf Examples.cleaned
  /\ (DF.nrows Examples.cleaned <= DF.nrows Examples.staged)%nat.
Proof.
  assert (DF.wf Examples.staged) as Hwf by frame_wf.
  assert (@clean_data iso_parser Examples.staged = Returned Examples.cleaned) as Hr
    by (vm_compute; reflexivity).
  destruct (@clean_data_wf iso_parser _ _ Hwf Hr) as (Hwf' & Hle & _).
  auto.
Defined.

Lemma clean_data_empty_witness :
  DF.wf Examples.empty_staged
  /\ DF.nrows Examples.empty_staged = 0%nat
  /\ @clean_data iso_parser Examples.empty_staged = Returned Examples.empty_staged.
Proof.
  assert (DF.wf Examples.empty_staged) as Hwf by frame_wf.
  assert ("Date_Parsed" ∉ DF.columns Examples.empty_staged) as Hfresh.
  { apply (bool_decide_unpack _). vm_compute. reflexivity. }
  assert (forall c, c ∈ Rules.required_columns Examples.empty_staged ->
                    c ∈ DF.columns Examples.empty_staged) as Hreq by labels_present.
  split; [exact Hwf|split; [reflexivity|]].
  exact (@clean_data_empty iso_parser _ Hwf eq_refl Hfresh Hreq).
Defined.

Lemma clean_data_distinct_identifiers_witness :
  DF.wf Examples.cleaned
  /\ @clean_data iso_parser Examples.cleaned = Returned Examples.cleaned
  /\ DF.nrows Examples.cleaned = DF.nrows Examples.cleaned
  /\ forall c, c ≠ "Date_Parsed" ->
       DF.lookup c Examples.cleaned
       = @Rules.column_rule iso_parser c <$> DF.lookup c Examples.cleaned.
Proof.
  assert (forall i j a b, i ≠ j ->
            [Int 1; Int 2] !! i = Some a -> [Int 1; Int 2] !! j = Some b ->
            Series_.same_key a b = false) as Hdistinct.
  { intros [|[|i]] [|[|j]] a b Hne Ha Hb;
      try discriminate Ha; try discriminate Hb; try (by destruct Hne);
      apply Some_inj in Ha as <-; apply Some_inj in Hb as <-; reflexivity. }
  assert (DF.wf Examples.cleaned) as Hwf by frame_wf.
  assert (@clean_data iso_parser Examples.cleaned = Returned Examples.cleaned) as Hr
    by (vm_compute; reflexivity).
  split; [exact Hwf|split; [exact Hr|]].
  exact (@clean_data_distinct_identifiers iso_parser _ _ _ Hwf Hr eq_refl Hdistinct).
Defined.

Lemma clean_data_labels_witness :
  @clean_data iso_parser Examples.staged = Returned Examples.cleaned
  /\ DF.columns Examples.cleaned = DF.columns Examples.staged.
Proof.
  assert (@clean_data iso_parser Examples.staged = Returned Examples.cleaned) as Hr
    by (vm_compute; reflexivity).
  assert ("Date_Parsed" ∉ DF.columns Examples.staged) as Hfresh.
  { apply (bool_decide_unpack _). vm_compute. reflexivity. }
  destruct (@clean_data_labels iso_parser _ _ Hr) as (_ & _ & Hsame).
  split; [exact Hr|exact (Hsame Hfresh)].
Defined.

Lemma clean_data_other_columns_witness :
  @clean_data iso_parser Examples.sparse = Returned Examples.sparse_cleaned
  /\ exists ids,
      DF.lookup "Employee_ID" Examples.sparse = Some ids
      /\ DF.lookup "Salary" Examples.sparse_cleaned
         = Series_.select (Rules.keep_first ids) <$> DF.lookup "Salary" Examples.sparse.
Proof.
  assert (@clean_data iso_parser Examples.sparse = Returned Examples.sparse_cleaned)
    as Hr by (vm_compute; reflexivity).
  assert ("Salary" ∉ Labels.rewritten_columns) as Hc.
  { apply (bool_decide_unpack _). vm_compute. reflexivity. }
  assert ("Salary" ≠ "Date_Parsed") as Hne by discriminate.
  split; [exact Hr|].
  exact (@clean_data_other_columns iso_parser _ _ "Salary" Hr Hc Hne).
Defined.


Lemma clean_data_department_normal_witness :
  @clean_data iso_parser Examples.sparse = Returned Examples.sparse_cleaned
  /\ DF.lookup "Department" Examples.sparse_cleaned = Some [Str "NONE"; Str "FINANCE"]
  /\ forall j d, [Str "NONE"; Str "FINANCE"] !! j = Some d ->
       exists s, d = Str s
                 /\ (s ∈ Labels.canonical_labels
                     \/ (dept_mapping !! s = None
                         /\ PyStr.no_space s = true /\ PyStr.upper s = s)).
Proof.
  assert (@clean_data iso_parser Examples.sparse = Returned Examples.sparse_cleaned)
    as Hr by (vm_compute; reflexivity).
  split; [exact Hr|split; [reflexivity|]].
  exact (@clean_data_department_normal iso_parser _ _ _ Hr eq_refl).
Defined.

Lemma clean_data_no_missing_witness :
  @clean_data iso_parser Examples.sparse = Returned Examples.sparse_cleaned
  /\ DF.lookup "Years_of_Experience" Examples.sparse_cleaned = Some [Int (-1); Int 12]
  /\ forall j d, [Int (-1); Int 12] !! j = Some d -> isnull d = false.
Proof.
  assert (@clean_data iso_parser Examples.sparse = Returned Examples.sparse_cleaned)
    as Hr by (vm_compute; reflexivity).
  assert ("Years_of_Experience"
          ∈ ["Name"; "Performance_Rating"; "Country"; "Years_of_Experience";
             "Date_of_Joining"]) as Hc.
  { apply (bool_decide_unpack _). vm_compute. reflexivity. }
  split; [exact Hr|split; [reflexivity|]].
  exact (@clean_data_no_missing iso_parser _ _ _ _ Hr Hc eq_refl).
Defined.

Lemma profile_data_returns_frame_witness :
  exists st out,
    @Profiler.profile_data iso_parser (Profiler.mkState Examples.with_parsed_date [])
    = (st, Returned out)
    /\ Profiler.frame st = DF.remove "Parsed_Date" Examples.with_parsed_date
    /\ out = DF.remove "Parsed_Date" Examples.with_parsed_date.
Proof.
  pose (run := @Profiler.profile_data iso_parser
                 (Profiler.mkState Examples.with_parsed_date [])).
  assert (run = (run.1, Returned (DF.remove "Parsed_Date" Examples.with_parsed_date)))
    as Hrun by (vm_compute; reflexivity).
  destruct (@profile_data_returns_frame iso_parser _ _ _ _ Hrun) as (Hframe & Hout & _).
  exists run.1, (DF.remove "Parsed_Date" Examples.with_parsed_date). auto.
Defined.

Lemma data_to_insert_rows_witness :
  DF.wf Examples.sparse_cleaned
  /\ exists rows,
      Loader.data_to_insert Examples.sparse_cleaned = Returned rows
      /\ length rows = 2%nat
      /\ forall r, r ∈ rows ->
           length r = 9%nat /\ forall x, x ∈ r -> isnull x = true -> x = PyNone.
Proof.
  assert (DF.wf Examples.sparse_cleaned) as Hwf by frame_wf.
  pose (rows := [ [PyNone; Str "Unknown"; PyNone; Str "NONE"; Str "1900-01-01";
                   Int (-1); Str "Unknown"; PyNone; Str "Unknown"];
                  [Int 7; Str "Ann Lee"; Int 41; Str "FINANCE"; Str "2020-02-29";
                   Int 12; Str "India"; Int 90000; Str "Top"] ]).
  assert (Loader.data_to_insert Examples.sparse_cleaned = Returned rows) as Hd
    by (vm_compute; reflexivity).
  split; [exact Hwf|]. exists rows. split; [exact Hd|].
  exact (data_to_insert_rows _ _ Hwf Hd).
Defined.

Lemma load_raises_missing_column_witness :
  Loader.load_clean_data_to_final_table (DF.remove "Salary" Examples.twice)
    Examples.fresh
  = (Examples.fresh, Raised (KeyError "Salary"))
  /\ Loader.stdout Examples.fresh = [].
Proof.
  assert (Loader.load_clean_data_to_final_table (DF.remove "Salary" Examples.twice)
            Examples.fresh
          = (Examples.fresh, Raised (KeyError "Salary"))) as Hl
    by (vm_compute; reflexivity).
  destruct (load_raises_missing_column _ _ _ _ Hl) as (_ & _ & Hout & _).
  split; [exact Hl|exact Hout].
Defined.

Lemma load_all_or_nothing_witness :
  exists w' rows,
    Loader.data_to_insert Examples.twice = Returned rows
    /\ Loader.load_clean_data_to_final_table Examples.twice Examples.occupied
       = (w', Returned tt)
    /\ (Store.select_all (Loader.db w')
        = Store.select_all (Store.commit (Loader.db Examples.occupied))
        \/ Store.select_all (Loader.db w')
           = (Store.select_all (Store.commit (Loader.db Examples.occupied))
              ++ rows)%list).
Proof.
  pose (run := Loader.load_clean_data_to_final_table Examples.twice Examples.occupied).
  pose (batch := Loader.data_to_insert Examples.twice).
  assert (run = (run.1, Returned tt)) as Hrun by (vm_compute; reflexivity).
  assert (batch = Returned (DF.values (Loader.where_notnull Examples.twice))) as Hd
    by (vm_compute; reflexivity).
  destruct (load_all_or_nothing _ _ _ _ Hd Hrun) as (Hcases & _).
  exists run.1, (DF.values (Loader.where_notnull Examples.twice)). auto.
Defined.


Lemma clean_then_load_missing_identifier_witness :
  DF.wf Examples.sparse
  /\ @clean_data iso_parser Examples.sparse = Returned Examples.sparse_cleaned
  /\ exists w' e,
      Loader.load_clean_data_to_final_table Examples.sparse_cleaned Examples.occupied
      = (w', Returned tt)
      /\ Failure "An error occurred when inserting clean data" e ∈ Loader.stdout w'
      /\ Loader.db w' = Store.commit (Loader.db Examples.occupied).
Proof.
  assert (DF.wf Examples.sparse) as Hwf by frame_wf.
  assert (@clean_data iso_parser Examples.sparse = Returned Examples.sparse_cleaned)
    as Hr by (vm_compute; reflexivity).
  assert (forall c, c ∈ Loader.insert_columns -> c ∈ DF.columns Examples.sparse)
    as Hcols by labels_present.
  assert (NaN ∈ [NaN; Int 7; NaN]) as Hx by (by left).
  destruct (@clean_then_load_missing_identifier iso_parser _ _ _ NaN Examples.occupied
              Hwf Hr Hcols eq_refl Hx eq_refl) as (w' & e & Hload & Hout & Hdb & _).
  split; [exact Hwf|split; [exact Hr|]]. exists w', e. auto.
Defined.


Lemma clean_data_reports_dropped_rows_witness :
  DF.wf Examples.staged
  /\ @clean_data iso_parser Examples.staged = Returned Examples.cleaned
  /\ @Main.clean_data_with_report iso_parser Examples.staged Examples.fresh
     = (Loader.print (Number "Deduplicated records: dropped duplicate rows" 1)
          Examples.fresh,
        Returned Examples.cleaned).
Proof.
  assert (DF.wf Examples.staged) as Hwf by frame_wf.
  assert (@clean_data iso_parser Examples.staged = Returned Examples.cleaned) as Hr
    by (vm_compute; reflexivity).
  split; [exact Hwf|split; [exact Hr|]].
  exact (@clean_data_reports_dropped_rows iso_parser _ _ Examples.fresh Hwf Hr).
Defined.
